(** * Bike-fit analysis: the two-photo scoring and recommendation engine

    A shallow embedding of
      - [src/types/index.ts]            (the data contracts),
      - [src/app/api/analyze/route.ts]  (KOPS, postural consistency,
                                         recommendations, score, the
                                         two-photo branch of [POST]),
      - [lib/poseAnalysis.ts]           (landmark indices,
                                         [analyzeBikeFit], pose
                                         validation, the result handler),
      - [src/app/upload/page.tsx]       (the photo state and the request),
      - [components/PoseVisualization.tsx] (canvas size, what is drawn),
      - [app/onboarding/page.tsx]       (steps and selections).

    Numbers.  A JavaScript [number] is modelled as an exact rational
    ([Q]): every value is finite and the arithmetic does not round.
    Comparisons, [Math.abs], [Math.min], [Math.max] and [Math.round]
    are the usual ones on rationals.  [Math.atan2], [Math.sqrt] and
    [Math.PI] have no rational definition and are taken as parameters
    of the section that embeds the feature extractor.

    Arrays.  A [Landmark[]] received from JSON or from the pose detector
    may hold [null] entries and may be shorter than the index read; both
    reads give a falsy value, so an array is a [list (option Landmark)]
    and a read past the end gives [None] as well.

    Exceptions.  [throw new Error(msg)] is the [Err msg] result of a small
    error monad, [try { .. } catch] is [try_catch]. *)

From Stdlib Require Import QArith Qabs Qminmax Qround ZArith.
From Stdlib Require Import List String Ascii Bool Lia Lqa.
From Stdlib Require Import Sorted Permutation DecimalString.
Import ListNotations.

Open Scope Q_scope.

(* ------------------------------------------------------------------ *)
(** ** JavaScript primitives *)

Module JS.

(** [a < b] and [a > b] on numbers. *)
Definition ltb (a b : Q) : bool := negb (Qle_bool b a).
Definition gtb (a b : Q) : bool := ltb b a.
(** [a <= b]. *)
Definition leb (a b : Q) : bool := Qle_bool a b.

(** [Math.round]: the nearest integer, a tie going up. *)
Definition Math_round (x : Q) : Q := inject_Z (Qfloor (x + (1 # 2))).
Definition Math_abs (x : Q) : Q := Qabs x.
Definition Math_min (a b : Q) : Q := Qmin a b.
Definition Math_max (a b : Q) : Q := Qmax a b.

(** [x || d] on an optional number: [undefined] and [0] are falsy. *)
Definition or_default (x : option Q) (d : Q) : Q :=
  match x with
  | Some v => if Qeq_bool v 0 then d else v
  | None => d
  end.

(** [arr[i]]: [undefined] out of range, and a [null] entry is as falsy. *)
Definition get {A : Type} (arr : list (option A)) (i : nat) : option A :=
  match nth_error arr i with
  | Some (Some v) => Some v
  | _ => None
  end.

(** [arr.push(v)]. *)
Definition push {A : Type} (arr : list A) (v : A) : list A := arr ++ [v].

Definition decimal_of_Z (n : Z) : string :=
  NilZero.string_of_uint (N.to_uint (Z.to_N n)).

(** [x.toFixed(1)]: sign, then the integer [n] with [n / 10] nearest to
    [|x|] (the larger one on a tie), printed with one decimal.  Above
    [1e21] JavaScript switches to exponent notation, which depends on
    the binary representation; the angles printed here are degrees. *)
Definition toFixed1 (x : Q) : string :=
  let s := if ltb x 0 then "-"%string else ""%string in
  let n := Qfloor (Qabs x * 10 + (1 # 2)) in
  (s ++ decimal_of_Z (n / 10) ++ "." ++ decimal_of_Z (n mod 10))%string.

(** Exceptions. *)
Inductive Result (A : Type) : Type :=
| Ok (a : A)
| Err (message : string).
Arguments Ok {A} a.
Arguments Err {A} message.

Definition bind {A B : Type} (r : Result A) (k : A -> Result B) : Result B :=
  match r with
  | Ok a => k a
  | Err m => Err m
  end.

Definition try_catch {A : Type} (r : Result A) (handler : string -> A) : A :=
  match r with
  | Ok a => a
  | Err m => handler m
  end.

(** [arr.find(p)]. *)
Definition find {A : Type} (p : A -> bool) (arr : list A) : option A :=
  List.find p arr.

(** [arr.sort(cmp)]: ECMAScript requires the sort to be stable; with a
    comparator that is a consistent order the result is the insertion
    of each element, from the right, before the first element that it
    does not have to follow ([cmp a b <= 0]). *)
Fixpoint sort_insert {A : Type} (cmp : A -> A -> Z) (a : A) (l : list A)
  : list A :=
  match l with
  | [] => [a]
  | b :: l' => if (cmp a b <=? 0)%Z then a :: b :: l'
               else b :: sort_insert cmp a l'
  end.

Fixpoint sort {A : Type} (cmp : A -> A -> Z) (l : list A) : list A :=
  match l with
  | [] => []
  | a :: l' => sort_insert cmp a (sort cmp l')
  end.

End JS.

Notation "x <- r ;; k" := (JS.bind r (fun x => k))
  (at level 61, r at next level, right associativity).

(* ------------------------------------------------------------------ *)
(** ** src/types/index.ts *)

Record Landmark : Type := mkLandmark {
  x : Q;
  y : Q;
  z : Q;
  visibility : option Q
}.

Inductive PedalPosition : Type := six_oclock | three_oclock.

Definition PedalPosition_eqb (a b : PedalPosition) : bool :=
  match a, b with
  | six_oclock, six_oclock | three_oclock, three_oclock => true
  | _, _ => false
  end.

Record PoseAnalysis : Type := mkPoseAnalysis {
  kneeAngle : Q;
  torsoAngle : Q;
  elbowAngle : Q;
  reachDistance : Q;
  saddleHeight : Q;
  landmarks : option (list (option Landmark));
  imageData : option string;
  imageWidth : option Q;
  imageHeight : option Q;
  pedalPosition : option PedalPosition
}.

Record PhotoAnalysis : Type := mkPhotoAnalysis {
  position : PedalPosition;
  analysis : PoseAnalysis
}.

Record Point2D : Type := mkPoint2D { px : Q; py : Q }.

Record KOPSAnalysis : Type := mkKOPSAnalysis {
  kneePosition : Point2D;
  kops_pedalPosition : Point2D;
  horizontalOffset : Q;
  isOptimal : bool
}.

Record PosturalConsistency : Type := mkPosturalConsistency {
  torsoAngleDifference : Q;
  elbowAngleDifference : Q;
  isConsistent : bool;
  issues : list string
}.

Inductive RecommendationType : Type :=
| saddle_height | saddle_fore_aft | handlebar_height
| stem_length | cleat_position | core_stability.

Inductive Priority : Type := high | medium | low.

Inductive BasedOn : Type :=
| knee_angle | torso_angle | elbow_angle | kops | postural_consistency.

Record FitRecommendation : Type := mkFitRecommendation {
  type : RecommendationType;
  currentValue : Q;
  recommendedValue : Q;
  adjustment : string;
  priority : Priority;
  description : string;
  basedOn : BasedOn
}.

Record EnhancedAnalysisResult : Type := mkEnhancedAnalysisResult {
  sixOClockAnalysis : PoseAnalysis;
  threeOClockAnalysis : PoseAnalysis;
  kopsAnalysis : KOPSAnalysis;
  posturalConsistency : PosturalConsistency;
  recommendations : list FitRecommendation;
  overallScore : Q;
  summary : string
}.

Definition RecommendationType_eqb (a b : RecommendationType) : bool :=
  match a, b with
  | saddle_height, saddle_height
  | saddle_fore_aft, saddle_fore_aft
  | handlebar_height, handlebar_height
  | stem_length, stem_length
  | cleat_position, cleat_position
  | core_stability, core_stability => true
  | _, _ => false
  end.

Definition Priority_eqb (a b : Priority) : bool :=
  match a, b with
  | high, high | medium, medium | low, low => true
  | _, _ => false
  end.

(* ------------------------------------------------------------------ *)
(** ** lib/poseAnalysis.ts *)

Module PoseLib.

(** MediaPipe pose landmark indices ([POSE_LANDMARKS]). *)
Definition LEFT_SHOULDER : nat := 11.
Definition RIGHT_SHOULDER : nat := 12.
Definition LEFT_ELBOW : nat := 13.
Definition RIGHT_ELBOW : nat := 14.
Definition LEFT_WRIST : nat := 15.
Definition RIGHT_WRIST : nat := 16.
Definition LEFT_HIP : nat := 23.
Definition RIGHT_HIP : nat := 24.
Definition LEFT_KNEE : nat := 25.
Definition RIGHT_KNEE : nat := 26.
Definition LEFT_ANKLE : nat := 27.
Definition RIGHT_ANKLE : nat := 28.

(** The part of an [HTMLImageElement] that is read. *)
Record HTMLImageElement : Type := mkImage {
  naturalWidth : Q;
  naturalHeight : Q;
  width : Q;
  height : Q
}.

(** [img?.a || img?.b]. *)
Definition dimension (img : option HTMLImageElement)
           (a b : HTMLImageElement -> Q) : option Q :=
  match img with
  | Some i => if Qeq_bool (a i) 0 then Some (b i) else Some (a i)
  | None => None
  end.

Section Geometry.

Variable Math_atan2 : Q -> Q -> Q.
Variable Math_sqrt : Q -> Q.
Variable Math_PI : Q.

Definition calculateInteriorAngle (a b c : Landmark) : Q :=
  let radians := Math_atan2 (y c - y b) (x c - x b)
                 - Math_atan2 (y a - y b) (x a - x b) in
  let angle := JS.Math_abs (radians * 180 / Math_PI) in
  if JS.gtb angle 180 then 360 - angle else angle.

Definition calculateKneeBendAngle (hip knee ankle : Landmark) : Q :=
  let interiorAngle := calculateInteriorAngle hip knee ankle in
  180 - interiorAngle.

Definition calculateDistance (a b : Landmark) : Q :=
  Math_sqrt ((x a - x b) ^ 2 + (y a - y b) ^ 2).

Definition round1 (v : Q) : Q := JS.Math_round (v * 10) / 10.

(** An array is never falsy, so [!landmarks] does not fire on a value of
    the declared type; the [console.log] of the knee angles returns
    nothing and is left out. *)
Definition analyzeBikeFit (landmarks : list (option Landmark))
           (pedalPosition : option PedalPosition)
           (imageElement : option HTMLImageElement)
  : JS.Result PoseAnalysis :=
  let pedalPosition :=
    match pedalPosition with Some p => p | None => six_oclock end in
  if (List.length landmarks <? 33)%nat then
    JS.Err "Insufficient pose landmarks detected"
  else
    match JS.get landmarks RIGHT_SHOULDER, JS.get landmarks RIGHT_ELBOW,
          JS.get landmarks RIGHT_WRIST, JS.get landmarks RIGHT_HIP,
          JS.get landmarks RIGHT_KNEE, JS.get landmarks RIGHT_ANKLE with
    | Some shoulder, Some elbow, Some wrist,
      Some hip, Some knee, Some ankle =>
        let kneeBendAngle := calculateKneeBendAngle hip knee ankle in
        let verticalReference :=
          {| x := x hip; y := y hip - 0.1; z := z hip;
             visibility := None |} in
        let torsoAngle :=
          calculateInteriorAngle verticalReference hip shoulder in
        let elbowAngle := calculateInteriorAngle shoulder elbow wrist in
        let reachDistance := JS.Math_abs (x shoulder - x wrist) * 100 in
        let saddleHeight := calculateDistance hip ankle * 100 in
        JS.Ok {| kneeAngle := round1 kneeBendAngle;
                 torsoAngle := round1 torsoAngle;
                 elbowAngle := round1 elbowAngle;
                 reachDistance := round1 reachDistance;
                 saddleHeight := round1 saddleHeight;
                 landmarks := Some landmarks;
                 imageData := None;
                 imageWidth := dimension imageElement naturalWidth width;
                 imageHeight :=
                   dimension imageElement naturalHeight height;
                 pedalPosition := Some pedalPosition |}
    | _, _, _, _, _, _ =>
        JS.Err "Could not detect all required body parts"
    end.

End Geometry.

End PoseLib.

(* ------------------------------------------------------------------ *)
(** ** src/app/api/analyze/route.ts *)

Module Route.

(** The [POSE_LANDMARKS] table local to [calculateKOPS]. *)
Definition RIGHT_HIP : nat := 23.
Definition RIGHT_KNEE : nat := 25.
Definition RIGHT_ANKLE : nat := 27.

Definition calculateKOPS (landmarks : list (option Landmark))
           (imageWidth : option Q) : JS.Result KOPSAnalysis :=
  match JS.get landmarks RIGHT_KNEE, JS.get landmarks RIGHT_ANKLE with
  | Some knee, Some ankle =>
      let horizontalOffset :=
        (x knee - x ankle) * JS.or_default imageWidth 640 * 0.05 in
      JS.Ok {| kneePosition := {| px := x knee; py := y knee |};
               kops_pedalPosition := {| px := x ankle; py := y ankle |};
               horizontalOffset := horizontalOffset;
               isOptimal := JS.leb (JS.Math_abs horizontalOffset) 2 |}
  | _, _ => JS.Err "Could not detect knee or ankle for KOPS analysis"
  end.

Definition torsoIssue : string :=
  "Significant torso angle variation between pedal positions suggests instability".
Definition elbowIssue : string :=
  "Large elbow angle variation indicates excessive reach or poor core stability".

Definition analyzePosturalConsistency
           (sixOClockAnalysis threeOClockAnalysis : PoseAnalysis)
  : PosturalConsistency :=
  let torsoAngleDifference :=
    JS.Math_abs (torsoAngle sixOClockAnalysis
                 - torsoAngle threeOClockAnalysis) in
  let elbowAngleDifference :=
    JS.Math_abs (elbowAngle sixOClockAnalysis
                 - elbowAngle threeOClockAnalysis) in
  let issues : list string := [] in
  let issues :=
    if JS.gtb torsoAngleDifference 10 then JS.push issues torsoIssue
    else issues in
  let issues :=
    if JS.gtb elbowAngleDifference 15 then JS.push issues elbowIssue
    else issues in
  {| torsoAngleDifference := torsoAngleDifference;
     elbowAngleDifference := elbowAngleDifference;
     isConsistent := (List.length issues =? 0)%nat;
     issues := issues |}.

(** The argument of [console.warn('Unexpected 3 o\'clock knee angle:', _)]
    in [generateEnhancedRecommendations], when the call is made. *)
Definition threeOClockKneeWarning (threeOClockAnalysis : PoseAnalysis)
  : option Q :=
  if JS.ltb (kneeAngle threeOClockAnalysis) 60
     || JS.gtb (kneeAngle threeOClockAnalysis) 100
  then Some (kneeAngle threeOClockAnalysis)
  else None.

(** The array [recommendations] as the rules have filled it, before
    the final sort. *)
Definition recommendationsBeforeSort
           (sixOClockAnalysis threeOClockAnalysis : PoseAnalysis)
           (kopsAnalysis : KOPSAnalysis)
           (posturalConsistency : PosturalConsistency)
  : list FitRecommendation :=
  let recommendations : list FitRecommendation := [] in
  let recommendations :=
    if JS.ltb (kneeAngle sixOClockAnalysis) 25 then
      JS.push recommendations
        {| type := saddle_height;
           currentValue := kneeAngle sixOClockAnalysis;
           recommendedValue := 30;
           adjustment := "Raise saddle by 5-15mm";
           priority := high;
           description :=
             "Your knee bend is "
             ++ JS.toFixed1 (kneeAngle sixOClockAnalysis)
             ++ "° at bottom dead center, which is too straight. The saddle appears too high, reducing power output and potentially causing hip rocking.";
           basedOn := knee_angle |}
    else if JS.gtb (kneeAngle sixOClockAnalysis) 35 then
      JS.push recommendations
        {| type := saddle_height;
           currentValue := kneeAngle sixOClockAnalysis;
           recommendedValue := 30;
           adjustment := "Lower saddle by 5-15mm";
           priority := high;
           description :=
             "Your knee bend is "
             ++ JS.toFixed1 (kneeAngle sixOClockAnalysis)
             ++ "° at bottom dead center, which is too much bend. The saddle appears too low, limiting power generation and potentially causing knee strain.";
           basedOn := knee_angle |}
    else recommendations in
  (* the 3 o'clock knee angle is only reported: [threeOClockKneeWarning] *)
  let recommendations :=
    if negb (isOptimal kopsAnalysis) then
      if JS.gtb (horizontalOffset kopsAnalysis) 2 then
        JS.push recommendations
          {| type := saddle_fore_aft;
             currentValue := horizontalOffset kopsAnalysis;
             recommendedValue := 0;
             adjustment := "Move saddle backward 5-10mm";
             priority := medium;
             description :=
               "Your knee is too far forward over the pedal axle, which can reduce pedaling efficiency and cause anterior knee pain.";
             basedOn := kops |}
      else if JS.ltb (horizontalOffset kopsAnalysis) (-2) then
        JS.push recommendations
          {| type := saddle_fore_aft;
             currentValue := horizontalOffset kopsAnalysis;
             recommendedValue := 0;
             adjustment := "Move saddle forward 5-10mm";
             priority := medium;
             description :=
               "Your knee is too far behind the pedal axle, reducing power transfer and potentially overloading your lower back.";
             basedOn := kops |}
      else recommendations
    else recommendations in
  let avgTorsoAngle :=
    (torsoAngle sixOClockAnalysis + torsoAngle threeOClockAnalysis) / 2 in
  let recommendations :=
    if JS.ltb avgTorsoAngle 35 then
      JS.push recommendations
        {| type := handlebar_height;
           currentValue := avgTorsoAngle;
           recommendedValue := 45;
           adjustment := "Raise handlebars by 10-20mm or use shorter stem";
           priority := medium;
           description :=
             "Very aggressive position detected. Consider raising handlebars for improved comfort and sustainable aerodynamics.";
           basedOn := torso_angle |}
    else if JS.gtb avgTorsoAngle 55 then
      JS.push recommendations
        {| type := handlebar_height;
           currentValue := avgTorsoAngle;
           recommendedValue := 45;
           adjustment := "Lower handlebars by 10-20mm";
           priority := medium;
           description :=
             "Position is quite upright. Lowering handlebars will improve aerodynamics and power transfer.";
           basedOn := torso_angle |}
    else recommendations in
  let avgElbowAngle :=
    (elbowAngle sixOClockAnalysis + elbowAngle threeOClockAnalysis) / 2 in
  let recommendations :=
    if JS.ltb avgElbowAngle 150 then
      JS.push recommendations
        {| type := stem_length;
           currentValue := avgElbowAngle;
           recommendedValue := 155;
           adjustment := "Try a longer stem (+10-20mm) or move saddle back";
           priority := medium;
           description :=
             "Arms are too bent, indicating the cockpit may be too short. This can cause discomfort and poor weight distribution.";
           basedOn := elbow_angle |}
    else if JS.gtb avgElbowAngle 165 then
      JS.push recommendations
        {| type := stem_length;
           currentValue := avgElbowAngle;
           recommendedValue := 155;
           adjustment :=
             "Try a shorter stem (-10-20mm) or move saddle forward";
           priority := medium;
           description :=
             "Arms are too straight/locked, indicating the cockpit may be too long. This reduces control and comfort.";
           basedOn := elbow_angle |}
    else recommendations in
  let recommendations :=
    if negb (isConsistent posturalConsistency) then
      JS.push recommendations
        {| type := core_stability;
           currentValue :=
             JS.Math_max (torsoAngleDifference posturalConsistency)
                         (elbowAngleDifference posturalConsistency);
           recommendedValue := 5;
           adjustment :=
             "Focus on core strengthening and bike fit stability";
           priority := low;
           description :=
             "Significant postural variations detected between pedal positions. Consider core strengthening exercises and ensure your fit allows for stable, consistent positioning.";
           basedOn := postural_consistency |}
    else recommendations in
  recommendations.

Definition priorityOrder (p : Priority) : Z :=
  match p with
  | high => 3
  | medium => 2
  | low => 1
  end.

(** The comparator given to [sort]. *)
Definition comparePriority (a b : FitRecommendation) : Z :=
  (priorityOrder (priority b) - priorityOrder (priority a))%Z.

Definition generateEnhancedRecommendations
           (sixOClockAnalysis threeOClockAnalysis : PoseAnalysis)
           (kopsAnalysis : KOPSAnalysis)
           (posturalConsistency : PosturalConsistency)
  : list FitRecommendation :=
  JS.sort comparePriority
          (recommendationsBeforeSort sixOClockAnalysis threeOClockAnalysis
                                     kopsAnalysis posturalConsistency).

(** *** [calculateEnhancedScore]

    Each [if (..) score -= ..] statement is a function of the running
    [score]. *)

Definition deductSixOClockKnee (sixOClockAnalysis : PoseAnalysis)
           (score : Q) : Q :=
  if JS.ltb (kneeAngle sixOClockAnalysis) 25
     || JS.gtb (kneeAngle sixOClockAnalysis) 35
  then
    let deviation :=
      JS.Math_min (JS.Math_abs (kneeAngle sixOClockAnalysis - 25))
                  (JS.Math_abs (kneeAngle sixOClockAnalysis - 35)) in
    score - deviation * 2
  else score.

Definition deductThreeOClockKnee (threeOClockAnalysis : PoseAnalysis)
           (score : Q) : Q :=
  if JS.ltb (kneeAngle threeOClockAnalysis) 60
     || JS.gtb (kneeAngle threeOClockAnalysis) 100
  then score - 10
  else score.

Definition deductTorso (sixOClockAnalysis threeOClockAnalysis : PoseAnalysis)
           (score : Q) : Q :=
  let avgTorsoAngle :=
    (torsoAngle sixOClockAnalysis + torsoAngle threeOClockAnalysis) / 2 in
  if JS.ltb avgTorsoAngle 35 || JS.gtb avgTorsoAngle 55
  then score - JS.Math_abs (avgTorsoAngle - 45) * 1
  else score.

Definition deductElbow (sixOClockAnalysis threeOClockAnalysis : PoseAnalysis)
           (score : Q) : Q :=
  let avgElbowAngle :=
    (elbowAngle sixOClockAnalysis + elbowAngle threeOClockAnalysis) / 2 in
  if JS.ltb avgElbowAngle 150 || JS.gtb avgElbowAngle 165
  then score - JS.Math_abs (avgElbowAngle - 157.5) * 0.5
  else score.

Definition deductKOPS (kopsAnalysis : KOPSAnalysis) (score : Q) : Q :=
  if negb (isOptimal kopsAnalysis)
  then score - JS.Math_abs (horizontalOffset kopsAnalysis) * 2
  else score.

Definition deductConsistency (posturalConsistency : PosturalConsistency)
           (score : Q) : Q :=
  if negb (isConsistent posturalConsistency)
  then score - (torsoAngleDifference posturalConsistency
                + elbowAngleDifference posturalConsistency) * 0.5
  else score.

(** The variable [score] when the [return] statement is reached. *)
Definition scoreBeforeClamp
           (sixOClockAnalysis threeOClockAnalysis : PoseAnalysis)
           (kopsAnalysis : KOPSAnalysis)
           (posturalConsistency : PosturalConsistency) : Q :=
  let score := 100 in
  let score := deductSixOClockKnee sixOClockAnalysis score in
  let score := deductThreeOClockKnee threeOClockAnalysis score in
  let score := deductTorso sixOClockAnalysis threeOClockAnalysis score in
  let score := deductElbow sixOClockAnalysis threeOClockAnalysis score in
  let score := deductKOPS kopsAnalysis score in
  let score := deductConsistency posturalConsistency score in
  score.

Definition calculateEnhancedScore
           (sixOClockAnalysis threeOClockAnalysis : PoseAnalysis)
           (kopsAnalysis : KOPSAnalysis)
           (posturalConsistency : PosturalConsistency) : Q :=
  JS.Math_max 0
    (JS.Math_min 100
       (JS.Math_round
          (scoreBeforeClamp sixOClockAnalysis threeOClockAnalysis
                            kopsAnalysis posturalConsistency))).

(** *** The two-photo branch of [POST] *)

Inductive Response : Type :=
| json (result : EnhancedAnalysisResult)
| json_error (error : string) (status : Z).

(** The value assigned in the [catch] block. *)
Definition defaultKOPS : KOPSAnalysis :=
  {| kneePosition := {| px := 0.5; py := 0.5 |};
     kops_pedalPosition := {| px := 0.5; py := 0.5 |};
     horizontalOffset := 0;
     isOptimal := true |}.

Definition summaryOf (overallScore : Q) : string :=
  if JS.leb 80 overallScore then
    "Excellent bike fit! Your two-position analysis shows consistent, optimal positioning."
  else if JS.leb 60 overallScore then
    "Good bike fit foundation. The comprehensive analysis identified specific areas for improvement."
  else
    "Comprehensive analysis reveals significant opportunities to optimize your bike fit for comfort and performance.".

(** [landmarks || []]. *)
Definition landmarksOrEmpty (a : PoseAnalysis) : list (option Landmark) :=
  match landmarks a with
  | Some l => l
  | None => []
  end.

(** The branch taken when [body.photos] is an array of length 2. *)
Definition enhancedTwoPhotoAnalysis (photoAnalyses : list PhotoAnalysis)
  : Response :=
  let sixOClockPhoto :=
    JS.find (fun p => PedalPosition_eqb (position p) six_oclock)
            photoAnalyses in
  let threeOClockPhoto :=
    JS.find (fun p => PedalPosition_eqb (position p) three_oclock)
            photoAnalyses in
  match sixOClockPhoto, threeOClockPhoto with
  | Some sixOClockPhoto, Some threeOClockPhoto =>
      let sixOClockAnalysis := analysis sixOClockPhoto in
      let threeOClockAnalysis := analysis threeOClockPhoto in
      let kopsAnalysis :=
        JS.try_catch
          (calculateKOPS (landmarksOrEmpty threeOClockAnalysis)
                         (imageWidth threeOClockAnalysis))
          (fun _ => defaultKOPS) in
      let posturalConsistency :=
        analyzePosturalConsistency sixOClockAnalysis threeOClockAnalysis in
      let recommendations :=
        generateEnhancedRecommendations sixOClockAnalysis
          threeOClockAnalysis kopsAnalysis posturalConsistency in
      let overallScore :=
        calculateEnhancedScore sixOClockAnalysis threeOClockAnalysis
                               kopsAnalysis posturalConsistency in
      json {| sixOClockAnalysis := sixOClockAnalysis;
              threeOClockAnalysis := threeOClockAnalysis;
              kopsAnalysis := kopsAnalysis;
              posturalConsistency := posturalConsistency;
              recommendations := recommendations;
              overallScore := overallScore;
              summary := summaryOf overallScore |}
  | _, _ =>
      json_error "Both 6 o'clock and 3 o'clock photos are required" 400
  end.

End Route.

(* ------------------------------------------------------------------ *)
(** ** Record update and sample inputs *)

(** [{ ...a, kneeAngle: k }]. *)
Definition withKneeAngle (a : PoseAnalysis) (k : Q) : PoseAnalysis :=
  {| kneeAngle := k;
     torsoAngle := torsoAngle a;
     elbowAngle := elbowAngle a;
     reachDistance := reachDistance a;
     saddleHeight := saddleHeight a;
     landmarks := landmarks a;
     imageData := imageData a;
     imageWidth := imageWidth a;
     imageHeight := imageHeight a;
     pedalPosition := pedalPosition a |}.

(** [arr] with [arr[i] = v] assigned, for [i] within the array. *)
Fixpoint withEntry {A : Type} (arr : list A) (i : nat) (v : A) : list A :=
  match arr, i with
  | [], _ => []
  | _ :: arr', O => v :: arr'
  | a :: arr', S i' => a :: withEntry arr' i' v
  end.

(** The position of the rule that emits a recommendation type in the
    evaluation order of [generateEnhancedRecommendations] (no rule emits
    [cleat_position]). *)
Definition ruleIndex (t : RecommendationType) : Z :=
  match t with
  | saddle_height => 1
  | saddle_fore_aft => 2
  | handlebar_height => 3
  | stem_length => 4
  | core_stability => 5
  | cleat_position => 6
  end.

Definition isSaddleHeight (r : FitRecommendation) : bool :=
  RecommendationType_eqb (type r) saddle_height.

(** The joints that [analyzeBikeFit] reads. *)
Definition requiredJoints : list nat :=
  [PoseLib.RIGHT_SHOULDER; PoseLib.RIGHT_ELBOW; PoseLib.RIGHT_WRIST;
   PoseLib.RIGHT_HIP; PoseLib.RIGHT_KNEE; PoseLib.RIGHT_ANKLE].

(** The measurements of a feature record. *)
Definition measurements (a : PoseAnalysis) : Q * Q * Q * Q * Q :=
  (kneeAngle a, torsoAngle a, elbowAngle a, reachDistance a, saddleHeight a).

Module Samples.

Definition point (px py : Q) : Landmark :=
  {| x := px; y := py; z := 0; visibility := Some 0.9 |}.

(** A full 33-entry pose: every joint detected. *)
Definition fullPose : list (option Landmark) :=
  List.map (fun i => Some (point (inject_Z (Z.of_nat i) / 100) 0.5))
           (List.seq 0 33).

(** The same pose, knee at [x = 0.6] and ankle at [x = 0.5] in the
    entries that [calculateKOPS] reads. *)
Definition kopsPose : list (option Landmark) :=
  withEntry (withEntry fullPose 25 (Some (point 0.6 0.7)))
            27 (Some (point 0.5 0.9)).

Definition pose (knee torso elbow : Q) (pos : PedalPosition)
           (lms : option (list (option Landmark))) (w : option Q)
  : PoseAnalysis :=
  {| kneeAngle := knee; torsoAngle := torso; elbowAngle := elbow;
     reachDistance := 50; saddleHeight := 75;
     landmarks := lms; imageData := None;
     imageWidth := w; imageHeight := None;
     pedalPosition := Some pos |}.

(** Scenario A of the specification. *)
Definition sixA : PoseAnalysis := pose 28 42 155 six_oclock None None.
Definition threeA : PoseAnalysis :=
  pose 80 44 158 three_oclock (Some kopsPose) (Some 640).

Definition kopsA : KOPSAnalysis :=
  {| kneePosition := {| px := 0.6; py := 0.7 |};
     kops_pedalPosition := {| px := 0.5; py := 0.9 |};
     horizontalOffset := 0.5;
     isOptimal := true |}.

Definition consistentA : PosturalConsistency :=
  Route.analyzePosturalConsistency sixA threeA.

(** Scenario D: the three-o'clock pose without the entry that
    [calculateKOPS] reads as the ankle. *)
Definition threeD : PoseAnalysis :=
  pose 80 44 158 three_oclock (Some (withEntry kopsPose 27 None))
       (Some 640).

Definition photosD : list PhotoAnalysis :=
  [ {| position := six_oclock; analysis := sixA |};
    {| position := three_oclock; analysis := threeD |} ].

End Samples.

(* ------------------------------------------------------------------ *)
(** ** src/app/api/analyze/route.ts: the single-photo path and the
       dispatch of a JSON request *)

Module Legacy.

(** [AnalysisResult] of [src/types/index.ts]. *)
Record AnalysisResult : Type := mkAnalysisResult {
  angles : PoseAnalysis;
  recommendations : list FitRecommendation;
  overallScore : Q;
  summary : string
}.

Definition generateLegacyRecommendations (angles : PoseAnalysis)
  : list FitRecommendation :=
  let recommendations : list FitRecommendation := [] in
  let recommendations :=
    if JS.ltb (kneeAngle angles) 25 then
      JS.push recommendations
        (mkFitRecommendation
           saddle_height (kneeAngle angles) 30
           "Raise saddle by 5-10mm" high
           ("Your knee bend is " ++ JS.toFixed1 (kneeAngle angles)
            ++ "° at bottom dead center, which is too straight. Consider raising the saddle.")
           knee_angle)
    else if JS.gtb (kneeAngle angles) 35 then
      JS.push recommendations
        (mkFitRecommendation
           saddle_height (kneeAngle angles) 30
           "Lower saddle by 5-10mm" high
           ("Your knee bend is " ++ JS.toFixed1 (kneeAngle angles)
            ++ "° at bottom dead center, which is too much bend. Consider lowering the saddle.")
           knee_angle)
    else recommendations in
  recommendations.

(** The three [if (..) score -= ..] statements of [calculateLegacyScore]. *)
Definition deductKnee (angles : PoseAnalysis) (score : Q) : Q :=
  if JS.ltb (kneeAngle angles) 25 || JS.gtb (kneeAngle angles) 35
  then score - JS.Math_abs (kneeAngle angles - 30) * 2
  else score.

Definition deductTorso (angles : PoseAnalysis) (score : Q) : Q :=
  if JS.ltb (torsoAngle angles) 35 || JS.gtb (torsoAngle angles) 55
  then score - JS.Math_abs (torsoAngle angles - 45) * 1
  else score.

Definition deductElbow (angles : PoseAnalysis) (score : Q) : Q :=
  if JS.ltb (elbowAngle angles) 150 || JS.gtb (elbowAngle angles) 160
  then score - JS.Math_abs (elbowAngle angles - 155) * 0.5
  else score.

Definition scoreBeforeClamp (angles : PoseAnalysis) : Q :=
  let score := 100 in
  let score := deductKnee angles score in
  let score := deductTorso angles score in
  let score := deductElbow angles score in
  score.

Definition calculateLegacyScore (angles : PoseAnalysis) : Q :=
  JS.Math_max 0 (JS.Math_min 100 (JS.Math_round (scoreBeforeClamp angles))).

(** The fields of the parsed JSON body that [POST] reads. *)
Record Body : Type := mkBody {
  body_photos : option (list PhotoAnalysis);
  body_angles : option PoseAnalysis;
  body_isRealAnalysis : bool
}.

Definition legacySummary (isRealAnalysis : bool) (overallScore : Q)
  : string :=
  if isRealAnalysis then
    ((if JS.leb 80 overallScore then
        "Good bike fit! Consider upgrading to two-photo analysis for comprehensive recommendations."
      else if JS.leb 60 overallScore then
        "Decent foundation. Upgrade to two-photo analysis for detailed KOPS and consistency evaluation."
      else
        "Single-photo analysis shows areas for improvement. Two-photo analysis recommended for complete assessment.")
     ++ " (AI Analysis)")%string
  else if JS.leb 80 overallScore then
    "Great bike fit! Minor adjustments could optimize your position further."
  else if JS.leb 60 overallScore then
    "Good foundation with room for improvement."
  else
    "Significant adjustments needed for optimal comfort and performance.".

Inductive JsonResponse : Type :=
| enhanced (response : Route.Response)
| legacy (result : AnalysisResult)
| invalid (error : string) (status : Z).

(** [body.photos && Array.isArray(body.photos) && body.photos.length === 2]. *)
Definition isTwoPhotoRequest (body : Body) : bool :=
  match body_photos body with
  | Some photos => (List.length photos =? 2)%nat
  | None => false
  end.

(** The [application/json] branch of [POST]. *)
Definition POST_json (body : Body) : JsonResponse :=
  if isTwoPhotoRequest body then
    enhanced (Route.enhancedTwoPhotoAnalysis
                match body_photos body with
                | Some photos => photos
                | None => []
                end)
  else
    match body_angles body with
    | Some angles =>
        let recommendations := generateLegacyRecommendations angles in
        let overallScore := calculateLegacyScore angles in
        legacy {| angles := angles;
                  recommendations := recommendations;
                  overallScore := overallScore;
                  summary :=
                    legacySummary (body_isRealAnalysis body) overallScore |}
    | None => invalid "Invalid request format" 400
    end.

End Legacy.

(* ------------------------------------------------------------------ *)
(** ** lib/poseAnalysis.ts: [validatePoseForBikeFit] *)

Module PoseValidation.

Record Validation : Type := mkValidation {
  isValid : bool;
  issues : list string
}.

Definition keyLandmarks : list nat :=
  [PoseLib.RIGHT_SHOULDER; PoseLib.RIGHT_ELBOW; PoseLib.RIGHT_WRIST;
   PoseLib.RIGHT_HIP; PoseLib.RIGHT_KNEE; PoseLib.RIGHT_ANKLE].

Definition notVisibleIssue : string :=
  "Key body parts not clearly visible. Ensure good lighting and clear view.".

Definition sideViewIssue : string :=
  "Please position yourself in a side-view (90Â° to camera) for accurate analysis.".

(** [!landmark || (landmark.visibility !== undefined
                   && landmark.visibility < 0.5)]. *)
Definition notClearlyVisible (landmarks : list (option Landmark))
           (landmarkIndex : nat) : bool :=
  match JS.get landmarks landmarkIndex with
  | None => true
  | Some landmark =>
      match visibility landmark with
      | Some v => JS.ltb v 0.5
      | None => false
      end
  end.

(** The [for .. of keyLandmarks] loop, which stops at the first issue. *)
Fixpoint checkKeyLandmarks (landmarks : list (option Landmark))
         (indices : list nat) (issues : list string) : list string :=
  match indices with
  | [] => issues
  | landmarkIndex :: rest =>
      if notClearlyVisible landmarks landmarkIndex
      then JS.push issues notVisibleIssue
      else checkKeyLandmarks landmarks rest issues
  end.

Section Distance.

Variable Math_sqrt : Q -> Q.

Definition validatePoseForBikeFit (landmarks : list (option Landmark))
  : Validation :=
  let issues : list string := [] in
  if (List.length landmarks <? 33)%nat then
    {| isValid := false; issues := ["No pose detected"%string] |}
  else
    let issues := checkKeyLandmarks landmarks keyLandmarks issues in
    let leftShoulder := JS.get landmarks PoseLib.LEFT_SHOULDER in
    let rightShoulder := JS.get landmarks PoseLib.RIGHT_SHOULDER in
    let issues :=
      match leftShoulder, rightShoulder with
      | Some leftShoulder, Some rightShoulder =>
          let shoulderDistance :=
            PoseLib.calculateDistance Math_sqrt leftShoulder rightShoulder in
          if JS.gtb shoulderDistance 0.15
          then JS.push issues sideViewIssue
          else issues
      | _, _ => issues
      end in
    {| isValid := (List.length issues =? 0)%nat; issues := issues |}.

End Distance.

End PoseValidation.

(* ------------------------------------------------------------------ *)
(** ** lib/poseAnalysis.ts: the result handler of
       [processImageForBikeFit] *)

Module PoseDetection.

Definition noPoseMessage : string :=
  "No pose detected in image. Please ensure you are clearly visible in a side-view position with good lighting.".

Section Handler.

Variable Math_atan2 : Q -> Q -> Q.
Variable Math_sqrt : Q -> Q.
Variable Math_PI : Q.

(** The callback given to [pose.onResults]: what the promise resolves
    to, or the message it is rejected with.  [dataURL] is the encoded
    canvas, absent when the canvas has no 2d context. *)
Definition onResults (poseLandmarks : option (list (option Landmark)))
           (pedalPosition : PedalPosition)
           (img : PoseLib.HTMLImageElement) (dataURL : option string)
  : JS.Result PoseAnalysis :=
  match poseLandmarks with
  | Some (first :: rest) =>
      match PoseLib.analyzeBikeFit Math_atan2 Math_sqrt Math_PI
                                   (first :: rest) (Some pedalPosition)
                                   (Some img) with
      | JS.Ok analysis =>
          JS.Ok match dataURL with
                | Some url =>
                    {| kneeAngle := kneeAngle analysis;
                       torsoAngle := torsoAngle analysis;
                       elbowAngle := elbowAngle analysis;
                       reachDistance := reachDistance analysis;
                       saddleHeight := saddleHeight analysis;
                       landmarks := landmarks analysis;
                       imageData := Some url;
                       imageWidth := imageWidth analysis;
                       imageHeight := imageHeight analysis;
                       pedalPosition :=
                         match analysis with
                         | mkPoseAnalysis _ _ _ _ _ _ _ _ _ p => p
                         end |}
                | None => analysis
                end
      | JS.Err message =>
          JS.Err ("Failed to analyze bike fit: " ++ message)
      end
  | _ => JS.Err noPoseMessage
  end.

End Handler.

End PoseDetection.

(* ------------------------------------------------------------------ *)
(** ** components/PoseVisualization.tsx *)

Module PoseVisualization.

(** The canvas size computed in [img.onload]. *)
Definition displaySize (img_width img_height : Q) : Q * Q :=
  let maxWidth := 600 in
  let maxHeight := 450 in
  let aspectRatio := img_width / img_height in
  let displayWidth := JS.Math_min maxWidth img_width in
  let displayHeight := displayWidth / aspectRatio in
  if JS.gtb displayHeight maxHeight then
    let displayHeight := maxHeight in
    let displayWidth := displayHeight * aspectRatio in
    (displayWidth, displayHeight)
  else (displayWidth, displayHeight).

Definition connections : list (nat * nat) :=
  [(PoseLib.RIGHT_SHOULDER, PoseLib.RIGHT_ELBOW);
   (PoseLib.RIGHT_ELBOW, PoseLib.RIGHT_WRIST);
   (PoseLib.RIGHT_SHOULDER, PoseLib.RIGHT_HIP);
   (PoseLib.RIGHT_HIP, PoseLib.RIGHT_KNEE);
   (PoseLib.RIGHT_KNEE, PoseLib.RIGHT_ANKLE)].

Definition keyLandmarks : list nat :=
  [PoseLib.RIGHT_SHOULDER; PoseLib.RIGHT_ELBOW; PoseLib.RIGHT_WRIST;
   PoseLib.RIGHT_HIP; PoseLib.RIGHT_KNEE; PoseLib.RIGHT_ANKLE].

(** The line segments stroked by [drawPoseLandmarks], in order:
    [(startX, startY, endX, endY)]. *)
Definition drawnConnections (landmarks : list (option Landmark))
           (scaleX scaleY : Q) : list (Q * Q * Q * Q) :=
  List.flat_map
    (fun connection : nat * nat =>
       let (startIdx, endIdx) := connection in
       match JS.get landmarks startIdx, JS.get landmarks endIdx with
       | Some start, Some end_ =>
           [(x start * scaleX, y start * scaleY,
             x end_ * scaleX, y end_ * scaleY)]
       | _, _ => []
       end)
    connections.

(** The centres of the circles filled by [drawPoseLandmarks]. *)
Definition drawnLandmarks (landmarks : list (option Landmark))
           (scaleX scaleY : Q) : list (Q * Q) :=
  List.flat_map
    (fun idx : nat =>
       match JS.get landmarks idx with
       | Some landmark => [(x landmark * scaleX, y landmark * scaleY)]
       | None => []
       end)
    keyLandmarks.

(** The label boxes drawn by [drawAngleAnnotations], in order:
    [(angleText, labelText)]. *)
Definition drawnLabels (landmarks : list (option Landmark))
           (kneeAngle elbowAngle torsoAngle : Q) : list (string * string) :=
  let shoulder := JS.get landmarks PoseLib.RIGHT_SHOULDER in
  let elbow := JS.get landmarks PoseLib.RIGHT_ELBOW in
  let wrist := JS.get landmarks PoseLib.RIGHT_WRIST in
  let hip := JS.get landmarks PoseLib.RIGHT_HIP in
  let knee := JS.get landmarks PoseLib.RIGHT_KNEE in
  let ankle := JS.get landmarks PoseLib.RIGHT_ANKLE in
  let labels : list (string * string) := [] in
  let labels :=
    match hip, knee, ankle with
    | Some _, Some _, Some _ =>
        JS.push labels
                ((JS.toFixed1 kneeAngle ++ "°")%string, "KNEE BEND"%string)
    | _, _, _ => labels
    end in
  let labels :=
    match shoulder, elbow, wrist with
    | Some _, Some _, Some _ =>
        JS.push labels
                ((JS.toFixed1 elbowAngle ++ "°")%string, "ELBOW"%string)
    | _, _, _ => labels
    end in
  let labels :=
    match shoulder, hip with
    | Some _, Some _ =>
        JS.push labels
                ((JS.toFixed1 torsoAngle ++ "°")%string, "TORSO"%string)
    | _, _ => labels
    end in
  labels.

End PoseVisualization.

(* ------------------------------------------------------------------ *)
(** ** src/app/upload/page.tsx *)

Module UploadPage.

(** The part of a browser [File] that is read. *)
Record File : Type := mkFile {
  name : string;
  type : string;
  size : Q
}.

Record PhotoUpload : Type := mkPhotoUpload {
  file : File;
  position : PedalPosition;
  analysis : option PoseAnalysis
}.

(** [file.type.startsWith('image/') && file.size <= 10 * 1024 * 1024]. *)
Definition isValidFile (f : File) : bool :=
  String.prefix "image/" (type f) && JS.leb (size f) (10 * 1024 * 1024).

(** [handleFileSelect] as the change it makes to the [photos] state. *)
Definition handleFileSelect (files : option (list File))
           (position : PedalPosition) (photos : list PhotoUpload)
  : list PhotoUpload :=
  match files with
  | None => photos
  | Some files =>
      if (List.length files =? 0)%nat then photos
      else
        let validFiles := List.filter isValidFile files in
        match validFiles with
        | [] => photos
        | first :: _ =>
            let newPhoto :=
              mkPhotoUpload first position None in
            let filtered :=
              List.filter
                (fun p => negb (PedalPosition_eqb
                                  (UploadPage.position p) position))
                photos in
            filtered ++ [newPhoto]
        end
  end.

Definition removePhoto (position : PedalPosition)
           (photos : list PhotoUpload) : list PhotoUpload :=
  List.filter
    (fun p => negb (PedalPosition_eqb (UploadPage.position p) position))
    photos.

Definition getPhotoByPosition (photos : list PhotoUpload)
           (position : PedalPosition) : option PhotoUpload :=
  JS.find (fun p => PedalPosition_eqb (UploadPage.position p) position)
          photos.

Definition hasRequiredPhotos (photos : list PhotoUpload) : bool :=
  (List.length photos =? 2)%nat
  && List.existsb
       (fun p => PedalPosition_eqb (UploadPage.position p) six_oclock)
       photos
  && List.existsb
       (fun p => PedalPosition_eqb (UploadPage.position p) three_oclock)
       photos.

(** The states that the page can reach from the initial empty array. *)
Inductive reachable : list PhotoUpload -> Prop :=
| reachable_initial : reachable []
| reachable_select files position photos :
    reachable photos -> reachable (handleFileSelect files position photos)
| reachable_remove position photos :
    reachable photos -> reachable (removePhoto position photos).

Definition positionName (position : PedalPosition) : string :=
  match position with
  | six_oclock => "6-oclock"
  | three_oclock => "3-oclock"
  end.

Section Analyze.

(** The pose detection of [processImageForBikeFit] is external. *)
Variable processImageForBikeFit :
  File -> PedalPosition -> JS.Result PoseAnalysis.

(** The [for (const photo of photos)] loop: a photo with its analysis is
    the pair of both; the first failure is rethrown. *)
Fixpoint analyzeEach (photos : list PhotoUpload)
         (analyzedPhotos : list (PhotoUpload * PoseAnalysis))
  : JS.Result (list (PhotoUpload * PoseAnalysis)) :=
  match photos with
  | [] => JS.Ok analyzedPhotos
  | photo :: rest =>
      match processImageForBikeFit (file photo) (UploadPage.position photo)
      with
      | JS.Ok poseAnalysis =>
          analyzeEach rest (JS.push analyzedPhotos (photo, poseAnalysis))
      | JS.Err message =>
          JS.Err ("Failed to analyze "
                  ++ positionName (UploadPage.position photo)
                  ++ " photo: " ++ message)
      end
  end.

Inductive Outcome : Type :=
| notStarted
| failed (message : string)
| requested (body : Legacy.Body).

(** [handleAnalyze] up to the request that it sends. *)
Definition handleAnalyze (photos : list PhotoUpload) (mediaPipeReady : bool)
  : Outcome :=
  if (List.length photos <? 2)%nat || negb mediaPipeReady then notStarted
  else
    match analyzeEach photos [] with
    | JS.Ok analyzedPhotos =>
        requested
          {| Legacy.body_photos :=
               Some (List.map
                       (fun p : PhotoUpload * PoseAnalysis =>
                          mkPhotoAnalysis (UploadPage.position (fst p))
                                          (snd p))
                       analyzedPhotos);
             Legacy.body_angles := None;
             Legacy.body_isRealAnalysis := true |}
    | JS.Err message => failed message
    end.

End Analyze.

(** [message.includes(part)]. *)
Fixpoint includes (message part : string) : bool :=
  String.prefix part message
  || match message with
     | EmptyString => false
     | String _ rest => includes rest part
     end.

(** The message shown by the [catch] block of [handleAnalyze]. *)
Definition errorMessage (message : string) : string :=
  if includes message "No pose detected" then
    "No person detected in one of the images. Please ensure you are clearly visible in both side-view positions."
  else if includes message "side-view" then
    "Please take both photos from the side (90Â° angle) showing your full riding position."
  else if includes message "landmarks" || includes message "body parts" then
    "Could not detect all body parts clearly in one of the photos. Please ensure good lighting and clear view of your riding position."
  else if includes message "MediaPipe" then
    "AI libraries not ready. Please refresh the page and try again."
  else "Failed to analyze images. Please try again.".

End UploadPage.

(* ------------------------------------------------------------------ *)
(** ** app/onboarding/page.tsx *)

Module Onboarding.

Definition totalSteps : Z := 4.

Inductive Transition : Type :=
| step (currentStep : Z)
| navigate (path : string).

Definition handleNext (currentStep : Z) : Transition :=
  if (currentStep <? totalSteps)%Z then step (currentStep + 1)%Z
  else navigate "/upload".

Definition handleBack (currentStep : Z) : Transition :=
  if (currentStep >? 1)%Z then step (currentStep - 1)%Z
  else navigate "/".

(** The array computed by the updater of [toggleArrayField]. *)
Definition toggleArrayField (currentArray : list string) (value : string)
  : list string :=
  if List.existsb (String.eqb value) currentArray
  then List.filter (fun item => negb (String.eqb item value)) currentArray
  else currentArray ++ [value].

End Onboarding.

(* ------------------------------------------------------------------ *)
(** ** Comparisons and rounding *)

Lemma ltb_true (a b : Q) : JS.ltb a b = true <-> a < b.
Proof.
  unfold JS.ltb. rewrite negb_true_iff.
  split; intro H.
  - apply Qnot_le_lt. intro Hle. apply Qle_bool_iff in Hle. congruence.
  - destruct (Qle_bool b a) eqn:E; [|reflexivity].
    apply Qle_bool_iff in E. exfalso. apply (Qlt_not_le _ _ H E).
Qed.

Lemma ltb_false (a b : Q) : JS.ltb a b = false <-> b <= a.
Proof.
  unfold JS.ltb. rewrite negb_false_iff. apply Qle_bool_iff.
Qed.

Lemma gtb_true (a b : Q) : JS.gtb a b = true <-> b < a.
Proof. apply ltb_true. Qed.

Lemma gtb_false (a b : Q) : JS.gtb a b = false <-> a <= b.
Proof. apply ltb_false. Qed.

Lemma leb_true (a b : Q) : JS.leb a b = true <-> a <= b.
Proof. apply Qle_bool_iff. Qed.

Lemma leb_false (a b : Q) : JS.leb a b = false <-> b < a.
Proof.
  unfold JS.leb. split; intro H.
  - apply Qnot_le_lt. intro Hle. apply Qle_bool_iff in Hle. congruence.
  - destruct (Qle_bool a b) eqn:E; [|reflexivity].
    apply Qle_bool_iff in E. exfalso. apply (Qlt_not_le _ _ H E).
Qed.

(** Turn every boolean comparison in the context into its proposition. *)
Ltac reflect_cmp :=
  repeat match goal with
    | H : JS.ltb _ _ = true |- _ => apply ltb_true in H
    | H : JS.ltb _ _ = false |- _ => apply ltb_false in H
    | H : JS.gtb _ _ = true |- _ => apply gtb_true in H
    | H : JS.gtb _ _ = false |- _ => apply gtb_false in H
    | H : JS.leb _ _ = true |- _ => apply leb_true in H
    | H : JS.leb _ _ = false |- _ => apply leb_false in H
    | H : _ || _ = true |- _ => apply orb_true_iff in H
    | H : _ || _ = false |- _ => apply orb_false_iff in H; destruct H
    end.

Lemma Math_round_sub_Z (v : Q) (n : Z) :
  JS.Math_round (v - inject_Z n) == JS.Math_round v - inject_Z n.
Proof.
  unfold JS.Math_round.
  assert (E : Qfloor (v - inject_Z n + (1 # 2))
              = (Qfloor (v + (1 # 2)) - n)%Z).
  { set (w := v + (1 # 2)).
    assert (Hw : v - inject_Z n + (1 # 2) == w - inject_Z n)
      by (unfold w; ring).
    rewrite (Qfloor_comp _ _ Hw).
    pose proof (Qfloor_le w) as Hlo.
    pose proof (Qlt_floor w) as Hhi.
    pose proof (Qfloor_le (w - inject_Z n)) as Hlo'.
    pose proof (Qlt_floor (w - inject_Z n)) as Hhi'.
    rewrite inject_Z_plus in Hhi, Hhi'.
    change (inject_Z 1) with 1 in Hhi, Hhi'.
    assert (A : inject_Z (Qfloor (w - inject_Z n))
                < inject_Z (Qfloor w + - n + 1)).
    { rewrite !inject_Z_plus, inject_Z_opp.
      change (inject_Z 1) with 1. lra. }
    assert (B : inject_Z (Qfloor w + - n)
                < inject_Z (Qfloor (w - inject_Z n) + 1)).
    { rewrite !inject_Z_plus, inject_Z_opp.
      change (inject_Z 1) with 1. lra. }
    rewrite <- Zlt_Qlt in A, B. lia. }
  rewrite E. unfold Zminus. rewrite inject_Z_plus, inject_Z_opp. ring.
Qed.

Lemma clamp_is_percentage (n : Z) :
  exists m : Z,
    JS.Math_max 0 (JS.Math_min 100 (inject_Z n)) = inject_Z m
    /\ (0 <= m <= 100)%Z.
Proof.
  unfold JS.Math_max, JS.Math_min, Qmax, Qmin,
    GenericMinMax.gmax, GenericMinMax.gmin.
  destruct (Z_lt_le_dec n 0) as [Hn | Hn].
  - exists 0%Z. split; [|lia].
    assert (H1 : (100 ?= inject_Z n) = Gt).
    { rewrite <- Qgt_alt; unfold Qlt; simpl; lia. }
    assert (H2 : (0 ?= inject_Z n) = Gt).
    { rewrite <- Qgt_alt; unfold Qlt; simpl; lia. }
    rewrite H1, H2. reflexivity.
  - destruct (Z_le_gt_dec n 100) as [Hm | Hm].
    + exists n. split; [|lia].
      destruct (Z.eq_dec n 100) as [-> | Hne]; [reflexivity|].
      assert (H1 : (100 ?= inject_Z n) = Gt).
      { rewrite <- Qgt_alt; unfold Qlt; simpl; lia. }
      rewrite H1.
      destruct (Z.eq_dec n 0) as [-> | Hn0]; [reflexivity|].
      assert (H2 : (0 ?= inject_Z n) = Lt).
      { rewrite <- Qlt_alt; unfold Qlt; simpl; lia. }
      rewrite H2. reflexivity.
    + exists 100%Z. split; [|lia].
      assert (H1 : (100 ?= inject_Z n) = Lt).
      { rewrite <- Qlt_alt; unfold Qlt; simpl; lia. }
      rewrite H1. reflexivity.
Qed.

(* ------------------------------------------------------------------ *)
(** ** Postural consistency *)

(** C5.  For every pair of feature records the consistency result holds
    the absolute torso and elbow differences; [isConsistent] is true
    exactly when the torso difference is at most 10 and the elbow
    difference at most 15; the torso issue is raised exactly when the
    torso difference exceeds 10, the elbow issue exactly when the elbow
    difference exceeds 15, nothing else is ever raised, and
    [isConsistent] is true exactly when the issue list is empty.  The
    function is total: it returns a record for every input, never an
    error. *)
Theorem postural_consistency_thresholds (six three : PoseAnalysis) :
  let r := Route.analyzePosturalConsistency six three in
  let dTorso := Qabs (torsoAngle six - torsoAngle three) in
  let dElbow := Qabs (elbowAngle six - elbowAngle three) in
  torsoAngleDifference r = dTorso
  /\ elbowAngleDifference r = dElbow
  /\ (isConsistent r = true <-> dTorso <= 10 /\ dElbow <= 15)
  /\ (In Route.torsoIssue (issues r) <-> 10 < dTorso)
  /\ (In Route.elbowIssue (issues r) <-> 15 < dElbow)
  /\ (forall s, In s (issues r) ->
                s = Route.torsoIssue \/ s = Route.elbowIssue)
  /\ (isConsistent r = true <-> issues r = []).
Proof.
  cbv zeta. unfold Route.analyzePosturalConsistency, JS.Math_abs, JS.push.
  cbn [torsoAngleDifference elbowAngleDifference isConsistent issues].
  set (dT := Qabs (torsoAngle six - torsoAngle three)).
  set (dE := Qabs (elbowAngle six - elbowAngle three)).
  split; [reflexivity|]. split; [reflexivity|].
  assert (Hne : Route.elbowIssue <> Route.torsoIssue) by discriminate.
  destruct (JS.gtb dT 10) eqn:HT; destruct (JS.gtb dE 15) eqn:HE;
    reflect_cmp; cbn [app List.length Nat.eqb In];
    (split; [|split; [|split; [|split; [|split]]]]);
    try solve [ split; intros; solve [ discriminate | lra | congruence
                                     | intuition (subst; auto; try lra;
                                                  try congruence;
                                                  try discriminate) ] ];
    try solve [ intros s Hs; intuition (subst; auto) ];
    try solve [ intros H; discriminate H ].
Qed.

(* ------------------------------------------------------------------ *)
(** ** KOPS *)

(** C6, as the specification states it, fails at image width 0: with the
    knee at [x = 0.6] and the ankle at [x = 0.5] the stated formula gives
    offset [0.1 * 0 * 0.05 = 0], hence optimal, while [calculateKOPS]
    falls back to 640 pixels and returns offset 3.2, not optimal. *)
Lemma kops_zero_width_counterexample :
  JS.get Samples.kopsPose Route.RIGHT_KNEE = Some (Samples.point 0.6 0.7)
  /\ JS.get Samples.kopsPose Route.RIGHT_ANKLE = Some (Samples.point 0.5 0.9)
  /\ exists r,
      Route.calculateKOPS Samples.kopsPose (Some 0) = JS.Ok r
      /\ horizontalOffset r == 3.2
      /\ ~ horizontalOffset r
           == (x (Samples.point 0.6 0.7) - x (Samples.point 0.5 0.9))
              * 0 * 0.05
      /\ isOptimal r = false.
Proof.
  split; [reflexivity|]. split; [reflexivity|].
  eexists. split; [reflexivity|].
  cbn [horizontalOffset isOptimal].
  split; [reflexivity|]. split; [|reflexivity].
  intro H. vm_compute in H. discriminate H.
Qed.

(** C6 (amended).  When the knee and ankle entries are present,
    [calculateKOPS] succeeds; the offset is
    [(knee.x - ankle.x) * w * 0.05] where [w] is the image width when one
    is given and is not 0, and 640 otherwise; [isOptimal] holds exactly
    when the absolute offset is at most 2; and when [knee.x = ankle.x]
    the offset is 0 and the result optimal, whatever the width. *)
Theorem kops_offset_and_optimal
        (lms : list (option Landmark)) (w : option Q)
        (knee ankle : Landmark)
        (Hknee : JS.get lms Route.RIGHT_KNEE = Some knee)
        (Hankle : JS.get lms Route.RIGHT_ANKLE = Some ankle) :
  exists r,
    Route.calculateKOPS lms w = JS.Ok r
    /\ kneePosition r = {| px := x knee; py := y knee |}
    /\ kops_pedalPosition r = {| px := x ankle; py := y ankle |}
    /\ (forall v, w = Some v -> ~ v == 0 ->
                  horizontalOffset r == (x knee - x ankle) * v * 0.05)
    /\ ((w = None \/ exists v, w = Some v /\ v == 0) ->
        horizontalOffset r == (x knee - x ankle) * 640 * 0.05)
    /\ (isOptimal r = true <-> Qabs (horizontalOffset r) <= 2)
    /\ (x knee == x ankle -> horizontalOffset r == 0 /\ isOptimal r = true).
Proof.
  unfold Route.calculateKOPS. rewrite Hknee, Hankle.
  eexists. split; [reflexivity|].
  cbn [kneePosition kops_pedalPosition horizontalOffset isOptimal].
  split; [reflexivity|]. split; [reflexivity|].
  assert (Hzero : x knee == x ankle ->
                  (x knee - x ankle) * JS.or_default w 640 * 0.05 == 0).
  { intros E. rewrite E. ring. }
  split; [|split; [|split]].
  - intros v -> Hv. unfold JS.or_default.
    destruct (Qeq_bool v 0) eqn:E; [|reflexivity].
    apply Qeq_bool_eq in E. contradiction.
  - intros [-> | [v [-> Hv]]]; unfold JS.or_default; [reflexivity|].
    rewrite (Qeq_eq_bool _ _ Hv). reflexivity.
  - apply leb_true.
  - intros E. split; [auto|]. apply leb_true. unfold JS.Math_abs.
    rewrite (Hzero E). vm_compute. discriminate.
Qed.

Lemma kops_offset_and_optimal_witness :
  exists r,
    Route.calculateKOPS Samples.kopsPose (Some 640) = JS.Ok r
    /\ horizontalOffset r == 3.2.
Proof.
  destruct (kops_offset_and_optimal Samples.kopsPose (Some 640)
              (Samples.point 0.6 0.7) (Samples.point 0.5 0.9)
              eq_refl eq_refl)
    as [r [Hr [_ [_ [Hoff _]]]]].
  exists r. split; [exact Hr|].
  rewrite (Hoff 640 eq_refl); [reflexivity|].
  intro H. vm_compute in H. discriminate H.
Defined.

(* ------------------------------------------------------------------ *)
(** ** The score *)

(** Every deduction step lowers the running score by an amount that does
    not depend on the score: shifting the input shifts the output. *)
Lemma deductSixOClockKnee_shift six (s d : Q) :
  Route.deductSixOClockKnee six (s - d)
  == Route.deductSixOClockKnee six s - d.
Proof.
  unfold Route.deductSixOClockKnee.
  destruct (_ || _); ring.
Qed.

Lemma deductThreeOClockKnee_shift three (s d : Q) :
  Route.deductThreeOClockKnee three (s - d)
  == Route.deductThreeOClockKnee three s - d.
Proof.
  unfold Route.deductThreeOClockKnee.
  destruct (_ || _); ring.
Qed.

Lemma deductTorso_shift six three (s d : Q) :
  Route.deductTorso six three (s - d) == Route.deductTorso six three s - d.
Proof.
  unfold Route.deductTorso. cbv zeta.
  destruct (_ || _); ring.
Qed.

Lemma deductElbow_shift six three (s d : Q) :
  Route.deductElbow six three (s - d) == Route.deductElbow six three s - d.
Proof.
  unfold Route.deductElbow. cbv zeta.
  destruct (_ || _); ring.
Qed.

Lemma deductKOPS_shift k (s d : Q) :
  Route.deductKOPS k (s - d) == Route.deductKOPS k s - d.
Proof.
  unfold Route.deductKOPS.
  destruct (negb _); ring.
Qed.

Lemma deductConsistency_shift c (s d : Q) :
  Route.deductConsistency c (s - d) == Route.deductConsistency c s - d.
Proof.
  unfold Route.deductConsistency.
  destruct (negb _); ring.
Qed.

(** The steps respect equality of rationals in the running score. *)
#[local] Instance deductSixOClockKnee_compat six :
  Proper (Qeq ==> Qeq) (Route.deductSixOClockKnee six).
Proof.
  intros s s' E. unfold Route.deductSixOClockKnee.
  destruct (_ || _); rewrite E; reflexivity.
Qed.

#[local] Instance deductThreeOClockKnee_compat three :
  Proper (Qeq ==> Qeq) (Route.deductThreeOClockKnee three).
Proof.
  intros s s' E. unfold Route.deductThreeOClockKnee.
  destruct (_ || _); rewrite E; reflexivity.
Qed.

#[local] Instance deductTorso_compat six three :
  Proper (Qeq ==> Qeq) (Route.deductTorso six three).
Proof.
  intros s s' E. unfold Route.deductTorso. cbv zeta.
  destruct (_ || _); rewrite E; reflexivity.
Qed.

#[local] Instance deductElbow_compat six three :
  Proper (Qeq ==> Qeq) (Route.deductElbow six three).
Proof.
  intros s s' E. unfold Route.deductElbow. cbv zeta.
  destruct (_ || _); rewrite E; reflexivity.
Qed.

#[local] Instance deductKOPS_compat k :
  Proper (Qeq ==> Qeq) (Route.deductKOPS k).
Proof.
  intros s s' E. unfold Route.deductKOPS.
  destruct (negb _); rewrite E; reflexivity.
Qed.

#[local] Instance deductConsistency_compat c :
  Proper (Qeq ==> Qeq) (Route.deductConsistency c).
Proof.
  intros s s' E. unfold Route.deductConsistency.
  destruct (negb _); rewrite E; reflexivity.
Qed.

(** The steps never raise the score (the last one provided the two
    differences are not negative, as those of
    [analyzePosturalConsistency] are). *)
Lemma deductSixOClockKnee_le six (s : Q) :
  Route.deductSixOClockKnee six s <= s.
Proof.
  unfold Route.deductSixOClockKnee, JS.Math_min, JS.Math_abs.
  destruct (_ || _); [|lra].
  set (a := Qabs (kneeAngle six - 25)).
  set (b := Qabs (kneeAngle six - 35)).
  assert (0 <= Qmin a b).
  { apply Q.min_glb; apply Qabs_nonneg. }
  lra.
Qed.

Lemma deductThreeOClockKnee_le three (s : Q) :
  Route.deductThreeOClockKnee three s <= s.
Proof.
  unfold Route.deductThreeOClockKnee. destruct (_ || _); lra.
Qed.

Lemma deductTorso_le six three (s : Q) :
  Route.deductTorso six three s <= s.
Proof.
  unfold Route.deductTorso, JS.Math_abs. cbv zeta.
  destruct (_ || _); [|lra].
  match goal with |- context [Qabs ?v] => pose proof (Qabs_nonneg v) end.
  lra.
Qed.

Lemma deductElbow_le six three (s : Q) :
  Route.deductElbow six three s <= s.
Proof.
  unfold Route.deductElbow, JS.Math_abs. cbv zeta.
  destruct (_ || _); [|lra].
  match goal with |- context [Qabs ?v] => pose proof (Qabs_nonneg v) end.
  lra.
Qed.

Lemma deductKOPS_le k (s : Q) : Route.deductKOPS k s <= s.
Proof.
  unfold Route.deductKOPS, JS.Math_abs.
  destruct (negb _); [|lra].
  match goal with |- context [Qabs ?v] => pose proof (Qabs_nonneg v) end.
  lra.
Qed.

Lemma deductConsistency_le c (s : Q) :
  0 <= torsoAngleDifference c -> 0 <= elbowAngleDifference c ->
  Route.deductConsistency c s <= s.
Proof.
  intros Ht He. unfold Route.deductConsistency.
  destruct (negb _); lra.
Qed.

(** C2.  For every pair of feature records and every KOPS and consistency
    result the enhanced score is an integer between 0 and 100.  The
    running score starts at 100; every step subtracts an amount that does
    not depend on the running score (additive, never compounding); with
    consistency differences that are not negative the running score
    never exceeds 100; and the returned value is the rounded running
    score clamped to [0,100]. *)
Theorem enhanced_score_is_percentage
        (six three : PoseAnalysis) (k : KOPSAnalysis)
        (c : PosturalConsistency) :
  (exists n : Z,
      Route.calculateEnhancedScore six three k c = inject_Z n
      /\ (0 <= n <= 100)%Z)
  /\ (forall s d : Q,
         Route.deductConsistency c
           (Route.deductKOPS k
              (Route.deductElbow six three
                 (Route.deductTorso six three
                    (Route.deductThreeOClockKnee three
                       (Route.deductSixOClockKnee six (s - d))))))
         == Route.deductConsistency c
              (Route.deductKOPS k
                 (Route.deductElbow six three
                    (Route.deductTorso six three
                       (Route.deductThreeOClockKnee three
                          (Route.deductSixOClockKnee six s))))) - d)
  /\ (0 <= torsoAngleDifference c -> 0 <= elbowAngleDifference c ->
      Route.scoreBeforeClamp six three k c <= 100)
  /\ (0 <= Route.scoreBeforeClamp six three k c <= 100 ->
      Route.calculateEnhancedScore six three k c
      = JS.Math_round (Route.scoreBeforeClamp six three k c)).
Proof.
  split; [|split; [|split]].
  - unfold Route.calculateEnhancedScore, JS.Math_round.
    apply clamp_is_percentage.
  - intros s d.
    rewrite deductSixOClockKnee_shift.
    rewrite deductThreeOClockKnee_shift.
    rewrite deductTorso_shift.
    rewrite deductElbow_shift.
    rewrite deductKOPS_shift.
    apply deductConsistency_shift.
  - intros Ht He. unfold Route.scoreBeforeClamp. cbv zeta.
    eapply Qle_trans; [apply deductConsistency_le; assumption|].
    eapply Qle_trans; [apply deductKOPS_le|].
    eapply Qle_trans; [apply deductElbow_le|].
    eapply Qle_trans; [apply deductTorso_le|].
    eapply Qle_trans; [apply deductThreeOClockKnee_le|].
    apply deductSixOClockKnee_le.
  - intros [Hlo Hhi]. unfold Route.calculateEnhancedScore.
    set (v := Route.scoreBeforeClamp six three k c) in *.
    unfold JS.Math_round.
    assert (H0 : (0 <= Qfloor (v + (1 # 2)))%Z).
    { change 0%Z with (Qfloor 0). apply Qfloor_resp_le. lra. }
    assert (H1 : (Qfloor (v + (1 # 2)) <= 100)%Z).
    { change 100%Z with (Qfloor (100 + (1 # 2))).
      apply Qfloor_resp_le. lra. }
    set (n := Qfloor (v + (1 # 2))) in *.
    unfold JS.Math_max, JS.Math_min, Qmax, Qmin,
      GenericMinMax.gmax, GenericMinMax.gmin.
    destruct (Z.eq_dec n 100) as [-> | Hne]; [reflexivity|].
    assert (E1 : (100 ?= inject_Z n) = Gt).
    { rewrite <- Qgt_alt; unfold Qlt; simpl; lia. }
    rewrite E1.
    destruct (Z.eq_dec n 0) as [-> | Hn0]; [reflexivity|].
    assert (E2 : (0 ?= inject_Z n) = Lt).
    { rewrite <- Qlt_alt; unfold Qlt; simpl; lia. }
    rewrite E2. reflexivity.
Qed.

(** C3, as the specification states it, fails inside the band: with torso
    angles 42 and 44 the mean is 43, the stated deduction would be
    [|43 - 45| * 1 = 2], and the torso step deducts nothing (the score of
    scenario A stays 100). *)
Lemma torso_deduction_in_band_counterexample :
  let mean := (torsoAngle Samples.sixA + torsoAngle Samples.threeA) / 2 in
  mean == 43
  /\ 100 - Route.deductTorso Samples.sixA Samples.threeA 100 == 0
  /\ ~ 100 - Route.deductTorso Samples.sixA Samples.threeA 100
       == Qabs (mean - 45) * 1
  /\ Route.calculateEnhancedScore Samples.sixA Samples.threeA
       Samples.kopsA Samples.consistentA = 100.
Proof.
  cbv zeta. split; [reflexivity|]. split; [reflexivity|].
  split; [|reflexivity].
  intro H. vm_compute in H. discriminate H.
Qed.

(** C3 (amended).  The torso step deducts [|meanTorsoAngle - 45| * 1]
    when the mean torso angle is below 35 or above 55, and nothing when
    it lies in [35,55]; the mean is the average of the two records' torso
    angles. *)
Theorem torso_deduction_outside_band
        (six three : PoseAnalysis) (score : Q) :
  let mean := (torsoAngle six + torsoAngle three) / 2 in
  (mean < 35 \/ 55 < mean ->
   score - Route.deductTorso six three score == Qabs (mean - 45) * 1)
  /\ (35 <= mean <= 55 -> Route.deductTorso six three score = score).
Proof.
  cbv zeta. unfold Route.deductTorso, JS.Math_abs. cbv zeta.
  set (mean := (torsoAngle six + torsoAngle three) / 2).
  destruct (JS.ltb mean 35 || JS.gtb mean 55) eqn:E; reflect_cmp.
  - split.
    + intros _. ring.
    + intros [Hlo Hhi]. destruct E as [E | E]; reflect_cmp; lra.
  - split.
    + intros [Hout | Hout]; lra.
    + reflexivity.
Qed.

#[local] Instance Math_round_compat : Proper (Qeq ==> Qeq) JS.Math_round.
Proof.
  intros a b E. unfold JS.Math_round.
  assert (E' : a + (1 # 2) == b + (1 # 2)) by (rewrite E; reflexivity).
  rewrite (Qfloor_comp _ _ E'). reflexivity.
Qed.

(** C4.  The three-o'clock knee angle never reaches the recommendation
    list: replacing it by any other value leaves the list unchanged.
    When it is below 60 or above 100 the warning is logged and the
    running score loses exactly 10 with respect to the other five steps,
    so that the returned score is the clamp of their rounded result minus
    10.  When it lies in [60,100] nothing is logged and the running and
    returned scores are those of the other five steps. *)
Theorem three_oclock_knee_check
        (six three : PoseAnalysis) (k : KOPSAnalysis)
        (c : PosturalConsistency) :
  let rest :=
    Route.deductConsistency c
      (Route.deductKOPS k
         (Route.deductElbow six three
            (Route.deductTorso six three
               (Route.deductSixOClockKnee six 100)))) in
  (forall angle : Q,
      Route.generateEnhancedRecommendations six (withKneeAngle three angle)
                                            k c
      = Route.generateEnhancedRecommendations six three k c)
  /\ (kneeAngle three < 60 \/ 100 < kneeAngle three ->
      Route.threeOClockKneeWarning three = Some (kneeAngle three)
      /\ (forall s, Route.deductThreeOClockKnee three s = s - 10)
      /\ Route.scoreBeforeClamp six three k c == rest - 10
      /\ Route.calculateEnhancedScore six three k c
         == JS.Math_max 0 (JS.Math_min 100 (JS.Math_round rest - 10)))
  /\ (60 <= kneeAngle three <= 100 ->
      Route.threeOClockKneeWarning three = None
      /\ (forall s, Route.deductThreeOClockKnee three s = s)
      /\ Route.scoreBeforeClamp six three k c = rest
      /\ Route.calculateEnhancedScore six three k c
         = JS.Math_max 0 (JS.Math_min 100 (JS.Math_round rest))).
Proof.
  cbv zeta. split; [|split].
  - intros angle. reflexivity.
  - intros Hout.
    assert (E : JS.ltb (kneeAngle three) 60
                || JS.gtb (kneeAngle three) 100 = true).
    { apply orb_true_iff.
      destruct Hout; [left; apply ltb_true | right; apply gtb_true];
        assumption. }
    assert (Hstep : forall s, Route.deductThreeOClockKnee three s = s - 10).
    { intros s. unfold Route.deductThreeOClockKnee. rewrite E.
      reflexivity. }
    assert (Hraw :
              Route.scoreBeforeClamp six three k c
              == Route.deductConsistency c
                   (Route.deductKOPS k
                      (Route.deductElbow six three
                         (Route.deductTorso six three
                            (Route.deductSixOClockKnee six 100)))) - 10).
    { unfold Route.scoreBeforeClamp. cbv zeta. rewrite Hstep.
      rewrite deductTorso_shift, deductElbow_shift, deductKOPS_shift.
      apply deductConsistency_shift. }
    split; [|split; [|split]].
    + unfold Route.threeOClockKneeWarning. rewrite E. reflexivity.
    + exact Hstep.
    + exact Hraw.
    + unfold Route.calculateEnhancedScore, JS.Math_max, JS.Math_min.
      rewrite Hraw.
      rewrite (Math_round_sub_Z _ 10). reflexivity.
  - intros [Hlo Hhi].
    assert (E : JS.ltb (kneeAngle three) 60
                || JS.gtb (kneeAngle three) 100 = false).
    { apply orb_false_iff.
      split; [apply ltb_false | apply gtb_false]; assumption. }
    assert (Hstep : forall s, Route.deductThreeOClockKnee three s = s).
    { intros s. unfold Route.deductThreeOClockKnee. rewrite E.
      reflexivity. }
    split; [|split; [|split]].
    + unfold Route.threeOClockKneeWarning. rewrite E. reflexivity.
    + exact Hstep.
    + unfold Route.scoreBeforeClamp. cbv zeta. rewrite Hstep.
      reflexivity.
    + unfold Route.calculateEnhancedScore, Route.scoreBeforeClamp.
      cbv zeta. rewrite Hstep. reflexivity.
Qed.

(* ------------------------------------------------------------------ *)
(** ** The stable sort *)

Section StableSort.

Context {A : Type}.
Variable rank : A -> Z.

(** The comparator [(a, b) => rank(b) - rank(a)]: descending rank. *)
Let cmp (a b : A) : Z := (rank b - rank a)%Z.

Let descending (a b : A) : Prop := (rank b <= rank a)%Z.

Lemma sort_insert_perm (a : A) (l : list A) :
  Permutation (JS.sort_insert cmp a l) (a :: l).
Proof.
  induction l as [|b l IH]; cbn.
  - apply Permutation_refl.
  - destruct (cmp a b <=? 0)%Z.
    + apply Permutation_refl.
    + eapply perm_trans; [apply perm_skip, IH | apply perm_swap].
Qed.

Lemma sort_perm (l : list A) : Permutation (JS.sort cmp l) l.
Proof.
  induction l as [|a l IH]; cbn.
  - constructor.
  - eapply perm_trans; [apply sort_insert_perm | apply perm_skip, IH].
Qed.

Lemma sort_insert_sorted (a : A) (l : list A) :
  StronglySorted descending l ->
  StronglySorted descending (JS.sort_insert cmp a l).
Proof.
  induction 1 as [|b l Hl IH Hb]; cbn.
  - repeat constructor.
  - destruct (cmp a b <=? 0)%Z eqn:E.
    + apply Z.leb_le in E. unfold cmp in E.
      constructor; [constructor; assumption|].
      constructor; [unfold descending; lia|].
      eapply Forall_impl; [|exact Hb].
      unfold descending. intros; lia.
    + apply Z.leb_gt in E. unfold cmp in E.
      constructor; [exact IH|].
      eapply Permutation_Forall;
        [apply Permutation_sym, sort_insert_perm|].
      constructor; [unfold descending; lia | exact Hb].
Qed.

Lemma sort_sorted (l : list A) : StronglySorted descending (JS.sort cmp l).
Proof.
  induction l as [|a l IH]; cbn.
  - constructor.
  - apply sort_insert_sorted, IH.
Qed.

(** Elements of one rank keep their relative order. *)
Lemma sort_insert_stable (p : Z) (a : A) (l : list A) :
  filter (fun e => rank e =? p)%Z (JS.sort_insert cmp a l)
  = filter (fun e => rank e =? p)%Z (a :: l).
Proof.
  induction l as [|b l IH]; cbn.
  - reflexivity.
  - destruct (cmp a b <=? 0)%Z eqn:E; [reflexivity|].
    apply Z.leb_gt in E. unfold cmp in E.
    cbn. rewrite IH. cbn.
    destruct (rank a =? p)%Z eqn:Ea; destruct (rank b =? p)%Z eqn:Eb;
      try reflexivity.
    apply Z.eqb_eq in Ea, Eb. lia.
Qed.

Lemma sort_stable (p : Z) (l : list A) :
  filter (fun e => rank e =? p)%Z (JS.sort cmp l)
  = filter (fun e => rank e =? p)%Z l.
Proof.
  induction l as [|a l IH]; cbn.
  - reflexivity.
  - rewrite sort_insert_stable. cbn. rewrite IH. reflexivity.
Qed.

End StableSort.

Lemma filter_perm {A : Type} (f : A -> bool) (l l' : list A) :
  Permutation l l' -> Permutation (filter f l) (filter f l').
Proof.
  induction 1 as [|a l l' H IH|a b l|l l' l'' H1 IH1 H2 IH2]; cbn.
  - constructor.
  - destruct (f a); [apply perm_skip|]; exact IH.
  - destruct (f a), (f b); try apply Permutation_refl. apply perm_swap.
  - eapply perm_trans; eassumption.
Qed.

Lemma filter_sorted {A : Type} (R : A -> A -> Prop) (f : A -> bool)
      (l : list A) :
  StronglySorted R l -> StronglySorted R (filter f l).
Proof.
  induction 1 as [|a l Hl IH Ha]; cbn.
  - constructor.
  - destruct (f a); [|exact IH].
    constructor; [exact IH|].
    apply Forall_forall. intros e He.
    apply filter_In in He. destruct He as [He _].
    rewrite Forall_forall in Ha. apply Ha, He.
Qed.

Lemma generateEnhancedRecommendations_perm six three k c :
  Permutation (Route.generateEnhancedRecommendations six three k c)
              (Route.recommendationsBeforeSort six three k c).
Proof.
  unfold Route.generateEnhancedRecommendations.
  apply (sort_perm (fun r => Route.priorityOrder (priority r))).
Qed.

(* ------------------------------------------------------------------ *)
(** ** The recommendation rules *)

(** Case analysis on every rule condition of the unsorted array. *)
Ltac rule_cases :=
  unfold Route.recommendationsBeforeSort, JS.push; cbv zeta;
  repeat match goal with
    | |- context [if ?b then _ else _] => destruct b eqn:?
    end.

Lemma saddle_height_rule_unsorted six three k c :
  let found :=
    filter isSaddleHeight (Route.recommendationsBeforeSort six three k c) in
  (25 <= kneeAngle six <= 35 -> found = [])
  /\ (kneeAngle six < 25 \/ 35 < kneeAngle six ->
      exists r, found = [r] /\ priority r = high
                /\ recommendedValue r = 30
                /\ currentValue r = kneeAngle six).
Proof.
  cbv zeta. split.
  - intros [Hlo Hhi]. rule_cases; reflect_cmp; try lra; reflexivity.
  - intros Hout.
    rule_cases; reflect_cmp; try (exfalso; destruct Hout; lra);
      (eexists; split; [reflexivity|]; repeat split; reflexivity).
Qed.

(** C1.  In the list returned by [generateEnhancedRecommendations]: when
    the six-o'clock knee angle lies in [25,35] no recommendation has type
    [saddle_height]; when it is below 25 or above 35 exactly one has,
    with priority [high], recommended value 30 and the knee angle as
    current value. *)
Theorem saddle_height_recommendation
        (six three : PoseAnalysis) (k : KOPSAnalysis)
        (c : PosturalConsistency) :
  let found :=
    filter (fun r => RecommendationType_eqb (type r) saddle_height)
           (Route.generateEnhancedRecommendations six three k c) in
  (25 <= kneeAngle six <= 35 -> found = [])
  /\ (kneeAngle six < 25 \/ 35 < kneeAngle six ->
      exists r, found = [r] /\ priority r = high
                /\ recommendedValue r = 30
                /\ currentValue r = kneeAngle six).
Proof.
  cbv zeta.
  pose proof (filter_perm isSaddleHeight _ _
                (generateEnhancedRecommendations_perm six three k c))
    as Hperm.
  destruct (saddle_height_rule_unsorted six three k c) as [Hin Hout].
  fold isSaddleHeight. split.
  - intros Hband. rewrite (Hin Hband) in Hperm.
    apply Permutation_sym, Permutation_nil in Hperm. exact Hperm.
  - intros Hk. destruct (Hout Hk) as [r [Hr Hprops]].
    exists r. split; [|exact Hprops].
    rewrite Hr in Hperm.
    apply Permutation_sym, Permutation_length_1_inv in Hperm. exact Hperm.
Qed.

Lemma rules_in_evaluation_order six three k c :
  StronglySorted (fun a b => (ruleIndex (type a) < ruleIndex (type b))%Z)
                 (Route.recommendationsBeforeSort six three k c).
Proof.
  rule_cases; cbn [app];
    repeat (constructor; cbn [type ruleIndex]; try lia).
Qed.

(** C8.  The returned list holds exactly the recommendations that the
    rules emitted, in descending priority under high = 3, medium = 2,
    low = 1; for every priority the recommendations of that priority are
    those of the unsorted array in the same order, which is the order in
    which the rules were evaluated. *)
Theorem recommendations_sorted_stable
        (six three : PoseAnalysis) (k : KOPSAnalysis)
        (c : PosturalConsistency) :
  let out := Route.generateEnhancedRecommendations six three k c in
  let emitted := Route.recommendationsBeforeSort six three k c in
  let ofPriority (p : Priority) :=
    filter (fun r => Priority_eqb (priority r) p) in
  Route.priorityOrder high = 3%Z
  /\ Route.priorityOrder medium = 2%Z
  /\ Route.priorityOrder low = 1%Z
  /\ Permutation out emitted
  /\ StronglySorted
       (fun a b => (Route.priorityOrder (priority b)
                    <= Route.priorityOrder (priority a))%Z) out
  /\ (forall p, ofPriority p out = ofPriority p emitted)
  /\ (forall p,
         StronglySorted
           (fun a b => (ruleIndex (type a) < ruleIndex (type b))%Z)
           (ofPriority p out)).
Proof.
  cbv zeta.
  assert (Hfilter :
            forall p l,
              filter (fun r => Priority_eqb (priority r) p) l
              = filter (fun r => (Route.priorityOrder (priority r)
                                  =? Route.priorityOrder p)%Z) l).
  { intros p l. apply filter_ext. intros r.
    destruct (priority r), p; reflexivity. }
  assert (Hstable :
            forall p,
              filter (fun r => Priority_eqb (priority r) p)
                     (Route.generateEnhancedRecommendations six three k c)
              = filter (fun r => Priority_eqb (priority r) p)
                       (Route.recommendationsBeforeSort six three k c)).
  { intros p. rewrite !Hfilter.
    unfold Route.generateEnhancedRecommendations.
    apply (sort_stable (fun r => Route.priorityOrder (priority r))). }
  split; [reflexivity|]. split; [reflexivity|]. split; [reflexivity|].
  split; [apply generateEnhancedRecommendations_perm|].
  split.
  - unfold Route.generateEnhancedRecommendations.
    apply (sort_sorted (fun r => Route.priorityOrder (priority r))).
  - split; [exact Hstable|].
    intros p. rewrite Hstable.
    apply filter_sorted, rules_in_evaluation_order.
Qed.

(* ------------------------------------------------------------------ *)
(** ** The two-photo pipeline *)

Lemma calculateKOPS_fails_iff (lms : list (option Landmark)) (w : option Q) :
  (exists m, Route.calculateKOPS lms w = JS.Err m)
  <-> JS.get lms Route.RIGHT_KNEE = None
      \/ JS.get lms Route.RIGHT_ANKLE = None.
Proof.
  unfold Route.calculateKOPS.
  destruct (JS.get lms Route.RIGHT_KNEE) as [knee|];
    destruct (JS.get lms Route.RIGHT_ANKLE) as [ankle|]; split;
    try (intros [m Hm]; discriminate Hm);
    try (intros [H | H]; discriminate H);
    try (intros _; eexists; reflexivity); auto.
Qed.

(** C7.  For a request that holds a six-o'clock and a three-o'clock
    photo the pipeline always answers with a report, whose consistency,
    recommendations, score and summary are computed from the two records
    and the report's KOPS value.  That value is the one
    [calculateKOPS] returns when it succeeds.  When the three-o'clock
    landmark array lacks the knee or the ankle entry, [calculateKOPS]
    throws and the report carries the neutral default: offset 0,
    optimal.  No other step of the pipeline can fail, so this is the only
    failure recovered. *)
Theorem kops_failure_recovered
        (photos : list PhotoAnalysis) (six three : PhotoAnalysis)
        (Hsix : JS.find (fun p => PedalPosition_eqb (position p) six_oclock)
                        photos = Some six)
        (Hthree : JS.find
                    (fun p => PedalPosition_eqb (position p) three_oclock)
                    photos = Some three) :
  let lms := Route.landmarksOrEmpty (analysis three) in
  let computed := Route.calculateKOPS lms (imageWidth (analysis three)) in
  exists report,
    Route.enhancedTwoPhotoAnalysis photos = Route.json report
    /\ sixOClockAnalysis report = analysis six
    /\ threeOClockAnalysis report = analysis three
    /\ posturalConsistency report
       = Route.analyzePosturalConsistency (analysis six) (analysis three)
    /\ recommendations report
       = Route.generateEnhancedRecommendations
           (analysis six) (analysis three)
           (kopsAnalysis report) (posturalConsistency report)
    /\ overallScore report
       = Route.calculateEnhancedScore
           (analysis six) (analysis three)
           (kopsAnalysis report) (posturalConsistency report)
    /\ summary report = Route.summaryOf (overallScore report)
    /\ (forall k, computed = JS.Ok k -> kopsAnalysis report = k)
    /\ (JS.get lms Route.RIGHT_KNEE = None
        \/ JS.get lms Route.RIGHT_ANKLE = None ->
        computed = JS.Err "Could not detect knee or ankle for KOPS analysis"
        /\ kopsAnalysis report = Route.defaultKOPS
        /\ horizontalOffset (kopsAnalysis report) = 0
        /\ isOptimal (kopsAnalysis report) = true).
Proof.
  cbv zeta. unfold Route.enhancedTwoPhotoAnalysis.
  rewrite Hsix, Hthree. cbv zeta.
  eexists. split; [reflexivity|].
  cbn [sixOClockAnalysis threeOClockAnalysis posturalConsistency
       recommendations overallScore summary kopsAnalysis].
  repeat (split; [reflexivity|]).
  split.
  - intros k Hk. rewrite Hk. reflexivity.
  - intros Hmissing.
    assert (Herr :
              Route.calculateKOPS (Route.landmarksOrEmpty (analysis three))
                                  (imageWidth (analysis three))
              = JS.Err "Could not detect knee or ankle for KOPS analysis").
    { unfold Route.calculateKOPS.
      destruct Hmissing as [H | H]; rewrite H; [reflexivity|].
      destruct (JS.get _ Route.RIGHT_KNEE); reflexivity. }
    rewrite Herr. repeat split; reflexivity.
Qed.

Lemma kops_failure_recovered_witness :
  exists report,
    Route.enhancedTwoPhotoAnalysis Samples.photosD = Route.json report
    /\ kopsAnalysis report = Route.defaultKOPS
    /\ overallScore report = 100.
Proof.
  destruct (kops_failure_recovered Samples.photosD
              {| position := six_oclock; analysis := Samples.sixA |}
              {| position := three_oclock; analysis := Samples.threeD |}
              eq_refl eq_refl)
    as [report [Hreport [_ [_ [Hcons [_ [Hscore [_ [_ Hmissing]]]]]]]]].
  exists report. split; [exact Hreport|].
  destruct (Hmissing (or_intror eq_refl)) as [_ [Hdefault _]].
  split; [exact Hdefault|].
  rewrite Hscore, Hdefault, Hcons. reflexivity.
Defined.

(* ------------------------------------------------------------------ *)
(** ** Per-photo feature extraction *)

Section FeatureExtraction.

Variable Math_atan2 : Q -> Q -> Q.
Variable Math_sqrt : Q -> Q.
Variable Math_PI : Q.

Local Abbreviation analyzeBikeFit :=
  (PoseLib.analyzeBikeFit Math_atan2 Math_sqrt Math_PI).

Lemma required_all_present (lms : list (option Landmark)) :
  (forall i, In i requiredJoints -> JS.get lms i <> None)
  -> exists shoulder elbow wrist hip knee ankle,
    JS.get lms PoseLib.RIGHT_SHOULDER = Some shoulder
    /\ JS.get lms PoseLib.RIGHT_ELBOW = Some elbow
    /\ JS.get lms PoseLib.RIGHT_WRIST = Some wrist
    /\ JS.get lms PoseLib.RIGHT_HIP = Some hip
    /\ JS.get lms PoseLib.RIGHT_KNEE = Some knee
    /\ JS.get lms PoseLib.RIGHT_ANKLE = Some ankle.
Proof.
  intros H.
  assert (Hget : forall i, In i requiredJoints ->
                           exists v, JS.get lms i = Some v).
  { intros i Hi. specialize (H i Hi).
    destruct (JS.get lms i) as [v|]; [exists v; reflexivity|congruence]. }
  destruct (Hget PoseLib.RIGHT_SHOULDER) as [a Ha]; [cbn; tauto|].
  destruct (Hget PoseLib.RIGHT_ELBOW) as [b Hb]; [cbn; tauto|].
  destruct (Hget PoseLib.RIGHT_WRIST) as [c Hc]; [cbn; tauto|].
  destruct (Hget PoseLib.RIGHT_HIP) as [d Hd]; [cbn; tauto|].
  destruct (Hget PoseLib.RIGHT_KNEE) as [e He]; [cbn; tauto|].
  destruct (Hget PoseLib.RIGHT_ANKLE) as [f Hf]; [cbn; tauto|].
  exists a, b, c, d, e, f. repeat split; assumption.
Qed.

Lemma required_one_absent (lms : list (option Landmark)) :
  (exists i, In i requiredJoints /\ JS.get lms i = None)
  -> match JS.get lms PoseLib.RIGHT_SHOULDER,
           JS.get lms PoseLib.RIGHT_ELBOW,
           JS.get lms PoseLib.RIGHT_WRIST,
           JS.get lms PoseLib.RIGHT_HIP,
           JS.get lms PoseLib.RIGHT_KNEE,
           JS.get lms PoseLib.RIGHT_ANKLE with
     | Some _, Some _, Some _, Some _, Some _, Some _ => False
     | _, _, _, _, _, _ => True
     end.
Proof.
  intros [i [Hi Hnone]].
  cbn in Hi.
  repeat (destruct Hi as [<- | Hi]; [rewrite Hnone |]);
    try contradiction;
    repeat match goal with
      | |- context [match JS.get lms ?j with _ => _ end] =>
          destruct (JS.get lms j)
      end; exact I.
Qed.

(** C9.  [analyzeBikeFit] throws exactly when the array has fewer than
    33 entries or one of the six required joints (right shoulder,
    elbow, wrist, hip, knee, ankle) is absent: "Insufficient pose
    landmarks detected" in the first case, "Could not detect all
    required body parts" in the second.  Otherwise it returns a feature
    record, which carries the array and the pedal position. *)
Theorem analyzeBikeFit_failure
        (lms : list (option Landmark)) (pos : option PedalPosition)
        (img : option PoseLib.HTMLImageElement) :
  let short := (List.length lms < 33)%nat in
  let absent := exists i, In i requiredJoints /\ JS.get lms i = None in
  ((exists m, analyzeBikeFit lms pos img = JS.Err m) <-> short \/ absent)
  /\ (short ->
      analyzeBikeFit lms pos img
      = JS.Err "Insufficient pose landmarks detected")
  /\ (~ short -> absent ->
      analyzeBikeFit lms pos img
      = JS.Err "Could not detect all required body parts")
  /\ (~ short -> ~ absent ->
      exists a, analyzeBikeFit lms pos img = JS.Ok a
                /\ landmarks a = Some lms
                /\ pedalPosition a
                   = Some match pos with
                          | Some p => p
                          | None => six_oclock
                          end).
Proof.
  cbv zeta.
  assert (Hshort : (List.length lms < 33)%nat ->
                   analyzeBikeFit lms pos img
                   = JS.Err "Insufficient pose landmarks detected").
  { intros H. unfold PoseLib.analyzeBikeFit.
    apply Nat.ltb_lt in H. rewrite H. reflexivity. }
  assert (Habsent :
            ~ (List.length lms < 33)%nat ->
            (exists i, In i requiredJoints /\ JS.get lms i = None) ->
            analyzeBikeFit lms pos img
            = JS.Err "Could not detect all required body parts").
  { intros Hlen Habs. unfold PoseLib.analyzeBikeFit.
    apply Nat.ltb_nlt in Hlen. rewrite Hlen.
    apply required_one_absent in Habs.
    repeat match goal with
      | |- context [match JS.get lms ?j with _ => _ end] =>
          destruct (JS.get lms j)
      end; try reflexivity; contradiction. }
  assert (Hok :
            ~ (List.length lms < 33)%nat ->
            ~ (exists i, In i requiredJoints /\ JS.get lms i = None) ->
            exists a, analyzeBikeFit lms pos img = JS.Ok a
                      /\ landmarks a = Some lms
                      /\ pedalPosition a
                         = Some match pos with
                                | Some p => p
                                | None => six_oclock
                                end).
  { intros Hlen Hpres. unfold PoseLib.analyzeBikeFit.
    apply Nat.ltb_nlt in Hlen. rewrite Hlen.
    destruct (required_all_present lms)
      as [a [b [c0 [d [e [f [Ha [Hb [Hc [Hd [He Hf]]]]]]]]]]].
    { intros i Hi Hnone. apply Hpres. exists i. split; assumption. }
    rewrite Ha, Hb, Hc, Hd, He, Hf.
    eexists. split; [reflexivity|]. split; reflexivity. }
  split; [|split; [exact Hshort | split; [exact Habsent | exact Hok]]].
  split.
  - intros [m Hm].
    destruct (Nat.lt_ge_cases (List.length lms) 33) as [Hl | Hl];
      [left; exact Hl|].
    right.
    destruct (JS.get lms PoseLib.RIGHT_SHOULDER) eqn:E1;
      [|exists PoseLib.RIGHT_SHOULDER; split; [cbn; tauto | exact E1]].
    destruct (JS.get lms PoseLib.RIGHT_ELBOW) eqn:E2;
      [|exists PoseLib.RIGHT_ELBOW; split; [cbn; tauto | exact E2]].
    destruct (JS.get lms PoseLib.RIGHT_WRIST) eqn:E3;
      [|exists PoseLib.RIGHT_WRIST; split; [cbn; tauto | exact E3]].
    destruct (JS.get lms PoseLib.RIGHT_HIP) eqn:E4;
      [|exists PoseLib.RIGHT_HIP; split; [cbn; tauto | exact E4]].
    destruct (JS.get lms PoseLib.RIGHT_KNEE) eqn:E5;
      [|exists PoseLib.RIGHT_KNEE; split; [cbn; tauto | exact E5]].
    destruct (JS.get lms PoseLib.RIGHT_ANKLE) eqn:E6;
      [|exists PoseLib.RIGHT_ANKLE; split; [cbn; tauto | exact E6]].
    exfalso.
    unfold PoseLib.analyzeBikeFit in Hm.
    assert (Hlen : (List.length lms <? 33)%nat = false)
      by (apply Nat.ltb_ge; exact Hl).
    rewrite Hlen, E1, E2, E3, E4, E5, E6 in Hm. discriminate Hm.
  - intros [Hs | Ha].
    + eexists. apply Hshort, Hs.
    + destruct (Nat.lt_ge_cases (List.length lms) 33) as [Hl | Hl].
      * eexists. apply Hshort, Hl.
      * eexists. apply Habsent; [lia | exact Ha].
Qed.

(** C10.  [calculateKOPS] reads the array at 25 and 27 only: two
    arrays that agree there give the same result.  In the index scheme
    of the feature extractor 25 and 27 are the left knee and the left
    ankle, while the extractor itself measures the right knee and
    ankle at 26 and 28: its measurements are the same for two arrays
    of one length that agree on its six joints.  So removing entry 26
    makes the extraction fail and leaves KOPS unchanged, and moving
    entries 25 and 27 changes KOPS and leaves the measurements
    unchanged. *)
Theorem kops_reads_left_knee_and_ankle :
  Route.RIGHT_KNEE = 25%nat /\ Route.RIGHT_ANKLE = 27%nat
  /\ PoseLib.LEFT_KNEE = 25%nat /\ PoseLib.LEFT_ANKLE = 27%nat
  /\ PoseLib.RIGHT_KNEE = 26%nat /\ PoseLib.RIGHT_ANKLE = 28%nat
  /\ (forall l1 l2 w,
         JS.get l1 25 = JS.get l2 25 -> JS.get l1 27 = JS.get l2 27 ->
         Route.calculateKOPS l1 w = Route.calculateKOPS l2 w)
  /\ (forall l1 l2 pos img,
         List.length l1 = List.length l2 ->
         (forall i, In i requiredJoints -> JS.get l1 i = JS.get l2 i) ->
         match analyzeBikeFit l1 pos img, analyzeBikeFit l2 pos img with
         | JS.Ok a1, JS.Ok a2 => measurements a1 = measurements a2
         | JS.Err m1, JS.Err m2 => m1 = m2
         | _, _ => False
         end)
  /\ (let without26 := withEntry Samples.fullPose 26 None in
      (forall w, Route.calculateKOPS without26 w
                 = Route.calculateKOPS Samples.fullPose w)
      /\ (exists a, analyzeBikeFit Samples.fullPose None None = JS.Ok a)
      /\ analyzeBikeFit without26 None None
         = JS.Err "Could not detect all required body parts")
  /\ (Route.calculateKOPS Samples.kopsPose (Some 640)
      <> Route.calculateKOPS Samples.fullPose (Some 640)
      /\ exists a1 a2,
          analyzeBikeFit Samples.kopsPose None None = JS.Ok a1
          /\ analyzeBikeFit Samples.fullPose None None = JS.Ok a2
          /\ measurements a1 = measurements a2).
Proof.
  repeat (split; [reflexivity|]).
  split; [|split; [|split]].
  - intros l1 l2 w H25 H27. unfold Route.calculateKOPS.
    change Route.RIGHT_KNEE with 25%nat.
    change Route.RIGHT_ANKLE with 27%nat.
    rewrite H25, H27. reflexivity.
  - intros l1 l2 pos img Hlen Hreq. unfold PoseLib.analyzeBikeFit.
    rewrite Hlen.
    rewrite (Hreq PoseLib.RIGHT_SHOULDER) by (cbn; tauto).
    rewrite (Hreq PoseLib.RIGHT_ELBOW) by (cbn; tauto).
    rewrite (Hreq PoseLib.RIGHT_WRIST) by (cbn; tauto).
    rewrite (Hreq PoseLib.RIGHT_HIP) by (cbn; tauto).
    rewrite (Hreq PoseLib.RIGHT_KNEE) by (cbn; tauto).
    rewrite (Hreq PoseLib.RIGHT_ANKLE) by (cbn; tauto).
    destruct (List.length l2 <? 33)%nat; [reflexivity|].
    repeat match goal with
      | |- context [match JS.get l2 ?j with _ => _ end] =>
          destruct (JS.get l2 j)
      end; reflexivity.
  - cbv zeta. split; [|split].
    + intros w. reflexivity.
    + eexists. reflexivity.
    + reflexivity.
  - split.
    + intros H. vm_compute in H. discriminate H.
    + eexists. eexists. split; [reflexivity|]. split; reflexivity.
Qed.

End FeatureExtraction.

(* ------------------------------------------------------------------ *)
(** ** The scenarios of the specification, evaluated *)

(** Scenario A: nothing to recommend, consistent, score 100. *)
Example scenario_A :
  Route.generateEnhancedRecommendations
    Samples.sixA Samples.threeA Samples.kopsA Samples.consistentA = []
  /\ isConsistent Samples.consistentA = true
  /\ Route.calculateEnhancedScore
       Samples.sixA Samples.threeA Samples.kopsA Samples.consistentA = 100.
Proof. repeat split; reflexivity. Qed.

(** Scenario B: a knee angle of 20 asks to raise the saddle and costs 10
    points. *)
Example scenario_B :
  let six := withKneeAngle Samples.sixA 20 in
  List.map (fun r => (type r, adjustment r, currentValue r, priority r))
           (Route.generateEnhancedRecommendations
              six Samples.threeA Samples.kopsA Samples.consistentA)
  = [(saddle_height, "Raise saddle by 5-15mm"%string, 20, high)]
  /\ Route.scoreBeforeClamp
       six Samples.threeA Samples.kopsA Samples.consistentA == 90.
Proof. split; reflexivity. Qed.

(** Scenario E: a torso difference of 15 degrees gives one low-priority
    [core_stability] recommendation whose current value is 15. *)
Example scenario_E :
  let three := Samples.pose 80 57 158 three_oclock None None in
  let c := Route.analyzePosturalConsistency Samples.sixA three in
  torsoAngleDifference c == 15
  /\ exists r,
      Route.generateEnhancedRecommendations Samples.sixA three
                                            Samples.kopsA c = [r]
      /\ type r = core_stability /\ priority r = low
      /\ currentValue r == 15.
Proof.
  cbv zeta. split; [reflexivity|].
  eexists. split; [reflexivity|]. repeat split; reflexivity.
Qed.

(* ------------------------------------------------------------------ *)
(** ** More on the recommendation rules *)

(** String literals are large terms; the case analysis names them first. *)
Ltac hide_strings :=
  repeat match goal with
    | |- context [String ?a ?s] =>
        let text := fresh "text" in
        generalize (String a s); intro text
    end.

Ltac rule_split :=
  unfold Route.recommendationsBeforeSort, JS.push; hide_strings; cbv zeta;
  repeat match goal with
    | |- context [if ?b then _ else _] => destruct b eqn:?
    end.

(** The rules push the high priority first and the low priority last, so
    the array is in final order before the sort. *)
Lemma sort_keeps_rules six three k c :
  Route.generateEnhancedRecommendations six three k c
  = Route.recommendationsBeforeSort six three k c.
Proof.
  unfold Route.generateEnhancedRecommendations.
  rule_split; reflexivity.
Qed.

Ltac negb_cases :=
  repeat match goal with
    | H : negb _ = true |- _ => apply negb_true_iff in H
    | H : negb _ = false |- _ => apply negb_false_iff in H
    end.

(** X1.  The final sort of [generateEnhancedRecommendations] never moves
    a recommendation: the rules already emit in descending priority
    (saddle height is high, the next three are medium, core stability is
    low). *)
Theorem rules_emit_in_priority_order
        (six three : PoseAnalysis) (k : KOPSAnalysis)
        (c : PosturalConsistency) :
  Route.generateEnhancedRecommendations six three k c
  = Route.recommendationsBeforeSort six three k c
  /\ StronglySorted
       (fun a b => (Route.priorityOrder (priority b)
                    <= Route.priorityOrder (priority a))%Z)
       (Route.recommendationsBeforeSort six three k c)
  /\ (forall r, In r (Route.recommendationsBeforeSort six three k c) ->
                priority r = match type r with
                             | saddle_height => high
                             | core_stability => low
                             | _ => medium
                             end).
Proof.
  split; [apply sort_keeps_rules|]. split.
  - rewrite <- sort_keeps_rules.
    unfold Route.generateEnhancedRecommendations.
    apply (sort_sorted (fun r => Route.priorityOrder (priority r))).
  - rule_split; cbn [app In]; intros r Hr;
      repeat (destruct Hr as [<- | Hr]; [reflexivity|]); contradiction.
Qed.

(** X2.  The saddle fore/aft rule.  A KOPS record flagged optimal, or
    whose offset lies in [-2,2], gives no [saddle_fore_aft]
    recommendation; a record flagged not optimal gives exactly one, of
    medium priority, recommending 0: "Move saddle backward 5-10mm" when
    the offset exceeds 2 and "Move saddle forward 5-10mm" when it is
    below -2. *)
Theorem fore_aft_recommendation
        (six three : PoseAnalysis) (k : KOPSAnalysis)
        (c : PosturalConsistency) :
  let found :=
    filter (fun r => RecommendationType_eqb (type r) saddle_fore_aft)
           (Route.generateEnhancedRecommendations six three k c) in
  (isOptimal k = true \/ -2 <= horizontalOffset k <= 2 -> found = [])
  /\ (isOptimal k = false /\ 2 < horizontalOffset k ->
      exists r, found = [r]
                /\ adjustment r = "Move saddle backward 5-10mm"%string
                /\ priority r = medium /\ basedOn r = kops
                /\ currentValue r = horizontalOffset k
                /\ recommendedValue r = 0)
  /\ (isOptimal k = false /\ horizontalOffset k < -2 ->
      exists r, found = [r]
                /\ adjustment r = "Move saddle forward 5-10mm"%string
                /\ priority r = medium /\ basedOn r = kops
                /\ currentValue r = horizontalOffset k
                /\ recommendedValue r = 0).
Proof.
  cbv zeta. rewrite sort_keeps_rules. split; [|split].
  - intros H. rule_split; negb_cases; reflect_cmp;
      try reflexivity; exfalso; destruct H as [H | [H1 H2]];
      try congruence; lra.
  - intros [Hopt Hoff].
    rule_split; negb_cases; reflect_cmp; try congruence; try lra;
      (eexists; split; [reflexivity|]; repeat split; reflexivity).
  - intros [Hopt Hoff].
    rule_split; negb_cases; reflect_cmp; try congruence; try lra;
      (eexists; split; [reflexivity|]; repeat split; reflexivity).
Qed.

(** X3.  The handlebar rule reads the mean of the two torso angles: no
    [handlebar_height] recommendation when the mean lies in [35,55];
    exactly one, of medium priority and recommending 45, otherwise: raise
    the bars below 35, lower them above 55. *)
Theorem handlebar_recommendation
        (six three : PoseAnalysis) (k : KOPSAnalysis)
        (c : PosturalConsistency) :
  let mean := (torsoAngle six + torsoAngle three) / 2 in
  let found :=
    filter (fun r => RecommendationType_eqb (type r) handlebar_height)
           (Route.generateEnhancedRecommendations six three k c) in
  (35 <= mean <= 55 -> found = [])
  /\ (mean < 35 ->
      exists r, found = [r]
                /\ adjustment r
                   = "Raise handlebars by 10-20mm or use shorter stem"%string
                /\ priority r = medium /\ basedOn r = torso_angle
                /\ currentValue r = mean /\ recommendedValue r = 45)
  /\ (55 < mean ->
      exists r, found = [r]
                /\ adjustment r = "Lower handlebars by 10-20mm"%string
                /\ priority r = medium /\ basedOn r = torso_angle
                /\ currentValue r = mean /\ recommendedValue r = 45).
Proof.
  cbv zeta. rewrite sort_keeps_rules. split; [|split]; intros H.
  - rule_split; reflect_cmp; try reflexivity; lra.
  - rule_split; reflect_cmp; try lra;
      (eexists; split; [reflexivity|]; repeat split; reflexivity).
  - rule_split; reflect_cmp; try lra;
      (eexists; split; [reflexivity|]; repeat split; reflexivity).
Qed.

(** X4.  The stem rule reads the mean of the two elbow angles: no
    [stem_length] recommendation when the mean lies in [150,165];
    exactly one, of medium priority and recommending 155, otherwise: a
    longer stem below 150, a shorter one above 165. *)
Theorem stem_recommendation
        (six three : PoseAnalysis) (k : KOPSAnalysis)
        (c : PosturalConsistency) :
  let mean := (elbowAngle six + elbowAngle three) / 2 in
  let found :=
    filter (fun r => RecommendationType_eqb (type r) stem_length)
           (Route.generateEnhancedRecommendations six three k c) in
  (150 <= mean <= 165 -> found = [])
  /\ (mean < 150 ->
      exists r, found = [r]
                /\ adjustment r
                   = "Try a longer stem (+10-20mm) or move saddle back"%string
                /\ priority r = medium /\ basedOn r = elbow_angle
                /\ currentValue r = mean /\ recommendedValue r = 155)
  /\ (165 < mean ->
      exists r, found = [r]
                /\ adjustment r
                   = "Try a shorter stem (-10-20mm) or move saddle forward"%string
                /\ priority r = medium /\ basedOn r = elbow_angle
                /\ currentValue r = mean /\ recommendedValue r = 155).
Proof.
  cbv zeta. rewrite sort_keeps_rules. split; [|split]; intros H.
  - rule_split; reflect_cmp; try reflexivity; lra.
  - rule_split; reflect_cmp; try lra;
      (eexists; split; [reflexivity|]; repeat split; reflexivity).
  - rule_split; reflect_cmp; try lra;
      (eexists; split; [reflexivity|]; repeat split; reflexivity).
Qed.


(** X5.  With the consistency result that [analyzePosturalConsistency]
    computes, a [core_stability] recommendation is emitted exactly when
    the torso angles differ by more than 10 or the elbow angles by more
    than 15; it is then the only one, has low priority, recommends 5 and
    reports the larger of the two differences, which exceeds 10. *)
Theorem core_stability_recommendation
        (six three : PoseAnalysis) (k : KOPSAnalysis) :
  let dTorso := Qabs (torsoAngle six - torsoAngle three) in
  let dElbow := Qabs (elbowAngle six - elbowAngle three) in
  let found :=
    filter (fun r => RecommendationType_eqb (type r) core_stability)
           (Route.generateEnhancedRecommendations
              six three k (Route.analyzePosturalConsistency six three)) in
  (dTorso <= 10 /\ dElbow <= 15 -> found = [])
  /\ (10 < dTorso \/ 15 < dElbow ->
      exists r, found = [r]
                /\ priority r = low /\ basedOn r = postural_consistency
                /\ recommendedValue r = 5
                /\ currentValue r = Qmax dTorso dElbow
                /\ 10 < currentValue r).
Proof.
  cbv zeta. rewrite sort_keeps_rules.
  set (c := Route.analyzePosturalConsistency six three).
  assert (Hc : isConsistent c = negb (JS.gtb (torsoAngleDifference c) 10)
                                && negb (JS.gtb (elbowAngleDifference c) 15)).
  { unfold c, Route.analyzePosturalConsistency, JS.push. cbv zeta.
    cbn [isConsistent torsoAngleDifference elbowAngleDifference].
    destruct (JS.gtb _ 10), (JS.gtb _ 15); reflexivity. }
  assert (HdT : torsoAngleDifference c
                = Qabs (torsoAngle six - torsoAngle three)) by reflexivity.
  assert (HdE : elbowAngleDifference c
                = Qabs (elbowAngle six - elbowAngle three)) by reflexivity.
  rewrite <- HdT, <- HdE. clearbody c.
  split.
  - intros [Ht He].
    assert (Hcons : isConsistent c = true).
    { rewrite Hc. apply andb_true_iff. split; apply negb_true_iff.
      - apply gtb_false. exact Ht.
      - apply gtb_false. exact He. }
    rule_split; negb_cases; try congruence; reflexivity.
  - intros Hout.
    assert (Hcons : isConsistent c = false).
    { rewrite Hc. apply andb_false_iff.
      destruct Hout as [H | H]; [left | right];
        apply negb_false_iff, gtb_true; exact H. }
    assert (Hmax : 10 < Qmax (torsoAngleDifference c)
                            (elbowAngleDifference c)).
    { apply Q.max_lt_iff. destruct Hout as [H | H]; [left; exact H|].
      right. lra. }
    rule_split; negb_cases; try congruence;
      (eexists; split; [reflexivity|];
       cbn [priority basedOn recommendedValue currentValue];
       repeat split; try reflexivity; exact Hmax).
Qed.

(** X6.  [generateEnhancedRecommendations] returns at most five
    recommendations, no two of the same type, and never one of type
    [cleat_position]. *)
Theorem recommendations_at_most_one_per_rule
        (six three : PoseAnalysis) (k : KOPSAnalysis)
        (c : PosturalConsistency) :
  let out := Route.generateEnhancedRecommendations six three k c in
  (List.length out <= 5)%nat
  /\ NoDup (List.map type out)
  /\ ~ In cleat_position (List.map type out).
Proof.
  cbv zeta. rewrite sort_keeps_rules.
  pose proof (rules_in_evaluation_order six three k c) as Hsorted.
  assert (Hidx : forall r,
             In r (Route.recommendationsBeforeSort six three k c) ->
             (1 <= ruleIndex (type r) <= 5)%Z).
  { rule_split; cbn [app In]; intros r Hr;
      repeat (destruct Hr as [<- | Hr]; [cbn; lia|]); contradiction. }
  set (rules := Route.recommendationsBeforeSort six three k c) in *.
  clearbody rules.
  assert (Hmap : StronglySorted Z.lt (List.map (fun r => ruleIndex (type r))
                                               rules)).
  { induction Hsorted as [|a l Hl IH Ha]; cbn; constructor.
    - apply IH. intros r Hr. apply Hidx. right. exact Hr.
    - apply Forall_forall. intros i Hi. apply in_map_iff in Hi.
      destruct Hi as [r [<- Hr]].
      rewrite Forall_forall in Ha. apply Ha, Hr. }
  split; [|split].
  - assert (Hlen : forall (l : list FitRecommendation) (lo : Z),
               StronglySorted
                 (fun a b => (ruleIndex (type a) < ruleIndex (type b))%Z) l ->
               (lo <= 6)%Z ->
               (forall r, In r l -> (lo <= ruleIndex (type r) <= 5)%Z) ->
               (Z.of_nat (List.length l) <= 6 - lo)%Z).
    { intros l. induction l as [|a l IH]; intros lo Hs Hlo Hb.
      - change (0 <= 6 - lo)%Z. lia.
      - inversion Hs as [|? ? Hs' Hall]; subst.
        assert (Ha := Hb a (or_introl eq_refl)).
        specialize (IH (ruleIndex (type a) + 1)%Z Hs').
        assert (Z.of_nat (List.length l)
                <= 6 - (ruleIndex (type a) + 1))%Z.
        { apply IH; [lia|]. intros r Hr. rewrite Forall_forall in Hall.
          specialize (Hall r Hr). specialize (Hb r (or_intror Hr)). lia. }
        cbn [List.length]. lia. }
    specialize (Hlen rules 1%Z Hsorted ltac:(lia) Hidx). lia.
  - clear Hmap. induction Hsorted as [|a l Hl IH Ha]; cbn; constructor.
    + intros Hin. apply in_map_iff in Hin. destruct Hin as [r [Hr Hin]].
      rewrite Forall_forall in Ha. specialize (Ha r Hin).
      rewrite Hr in Ha. lia.
    + apply IH. intros r Hr. apply Hidx. right. exact Hr.
  - intros Hin. apply in_map_iff in Hin. destruct Hin as [r [Hr Hin]].
    specialize (Hidx r Hin). rewrite Hr in Hidx. cbn in Hidx. lia.
Qed.

(** X7.  The six-o'clock knee step deducts twice the distance of the
    knee angle to the band [25,35]: [2 * (25 - k)] below 25,
    [2 * (k - 35)] above 35, nothing inside. *)
Theorem six_oclock_knee_deduction (six : PoseAnalysis) (score : Q) :
  (kneeAngle six < 25 ->
   Route.deductSixOClockKnee six score
   == score - 2 * (25 - kneeAngle six))
  /\ (35 < kneeAngle six ->
      Route.deductSixOClockKnee six score
      == score - 2 * (kneeAngle six - 35))
  /\ (25 <= kneeAngle six <= 35 ->
      Route.deductSixOClockKnee six score = score).
Proof.
  unfold Route.deductSixOClockKnee, JS.Math_min, JS.Math_abs.
  set (k := kneeAngle six).
  split; [|split]; intros H.
  - assert (E : JS.ltb k 25 || JS.gtb k 35 = true).
    { apply orb_true_iff. left. apply ltb_true. exact H. }
    rewrite E.
    rewrite (Qabs_neg (k - 25)) by lra.
    rewrite (Qabs_neg (k - 35)) by lra.
    rewrite Q.min_l by lra. ring.
  - assert (E : JS.ltb k 25 || JS.gtb k 35 = true).
    { apply orb_true_iff. right. apply gtb_true. exact H. }
    rewrite E.
    rewrite (Qabs_pos (k - 25)) by lra.
    rewrite (Qabs_pos (k - 35)) by lra.
    rewrite Q.min_r by lra. ring.
  - assert (E : JS.ltb k 25 || JS.gtb k 35 = false).
    { apply orb_false_iff. split; [apply ltb_false | apply gtb_false]; lra. }
    rewrite E. reflexivity.
Qed.

(** X8.  When nothing is recommended, the three-o'clock knee angle lies
    in [60,100] and the KOPS record is flagged optimal exactly when its
    offset is within 2 cm (as [calculateKOPS] and the default do), the
    score is 100. *)
Theorem nothing_recommended_scores_100
        (six three : PoseAnalysis) (k : KOPSAnalysis)
        (c : PosturalConsistency)
        (Hnone : Route.generateEnhancedRecommendations six three k c = [])
        (Hknee : 60 <= kneeAngle three <= 100)
        (Hkops : isOptimal k = true <-> Qabs (horizontalOffset k) <= 2) :
  Route.scoreBeforeClamp six three k c = 100
  /\ Route.calculateEnhancedScore six three k c = 100.
Proof.
  rewrite sort_keeps_rules in Hnone.
  assert (Hsilent :
            JS.ltb (kneeAngle six) 25 = false
            /\ JS.gtb (kneeAngle six) 35 = false
            /\ (isOptimal k = false ->
                JS.gtb (horizontalOffset k) 2 = false
                /\ JS.ltb (horizontalOffset k) (-2) = false)
            /\ JS.ltb ((torsoAngle six + torsoAngle three) / 2) 35 = false
            /\ JS.gtb ((torsoAngle six + torsoAngle three) / 2) 55 = false
            /\ JS.ltb ((elbowAngle six + elbowAngle three) / 2) 150 = false
            /\ JS.gtb ((elbowAngle six + elbowAngle three) / 2) 165 = false
            /\ isConsistent c = true).
  { revert Hnone. rule_split; cbn [app]; intros Hnone;
      try discriminate Hnone; negb_cases;
      repeat (split; [reflexivity || assumption|]);
      try (split; [intros Hf; first [congruence | split; reflexivity]|]);
      repeat (split; [reflexivity || assumption|]);
      assumption. }
  destruct Hsilent as [E1 [E2 [E3 [E4 [E5 [E6 [E7 E8]]]]]]].
  assert (Hopt : isOptimal k = true).
  { destruct (isOptimal k) eqn:E; [reflexivity|].
    destruct (E3 eq_refl) as [Ea Eb]. reflect_cmp.
    apply Hkops. apply Qabs_Qle_condition. split; lra. }
  assert (Hraw : Route.scoreBeforeClamp six three k c = 100).
  { unfold Route.scoreBeforeClamp, Route.deductSixOClockKnee,
      Route.deductThreeOClockKnee, Route.deductTorso, Route.deductElbow,
      Route.deductKOPS, Route.deductConsistency. cbv zeta.
    assert (E9 : JS.ltb (kneeAngle three) 60
                 || JS.gtb (kneeAngle three) 100 = false).
    { apply orb_false_iff.
      split; [apply ltb_false | apply gtb_false]; lra. }
    rewrite E9, E1, E2, E4, E5, E6, E7, E8, Hopt. reflexivity. }
  split; [exact Hraw|].
  unfold Route.calculateEnhancedScore. rewrite Hraw. reflexivity.
Qed.

Lemma nothing_recommended_scores_100_witness :
  Route.calculateEnhancedScore Samples.sixA Samples.threeA Samples.kopsA
                               Samples.consistentA = 100.
Proof.
  refine (proj2 (nothing_recommended_scores_100
                   Samples.sixA Samples.threeA Samples.kopsA
                   Samples.consistentA eq_refl _ _)).
  - split; unfold Qle; simpl; lia.
  - split; intros _; [unfold Qle; simpl; lia | reflexivity].
Defined.

(** X9.  For the KOPS result that [calculateKOPS] computes, the
    recommendation and the score agree: within 2 cm there is no
    [saddle_fore_aft] recommendation and nothing is deducted; beyond 2 cm
    there is exactly one and [2 * |offset|], more than 4 points, is
    deducted. *)
Theorem computed_kops_recommendation_and_score
        (lms : list (option Landmark)) (w : option Q) (k : KOPSAnalysis)
        (six three : PoseAnalysis) (c : PosturalConsistency) (score : Q)
        (Hk : Route.calculateKOPS lms w = JS.Ok k) :
  let found :=
    filter (fun r => RecommendationType_eqb (type r) saddle_fore_aft)
           (Route.generateEnhancedRecommendations six three k c) in
  (Qabs (horizontalOffset k) <= 2 ->
   found = [] /\ Route.deductKOPS k score = score)
  /\ (2 < Qabs (horizontalOffset k) ->
      (exists r, found = [r] /\ currentValue r = horizontalOffset k)
      /\ Route.deductKOPS k score
         == score - 2 * Qabs (horizontalOffset k)
      /\ Route.deductKOPS k score < score - 4).
Proof.
  cbv zeta.
  assert (Hopt : isOptimal k = JS.leb (Qabs (horizontalOffset k)) 2).
  { unfold Route.calculateKOPS in Hk.
    destruct (JS.get lms Route.RIGHT_KNEE); [|discriminate Hk].
    destruct (JS.get lms Route.RIGHT_ANKLE); [|discriminate Hk].
    injection Hk as <-. reflexivity. }
  clear Hk. rewrite sort_keeps_rules.
  unfold Route.deductKOPS, JS.Math_abs. split.
  - intros Hin.
    assert (E : isOptimal k = true) by (rewrite Hopt; apply leb_true, Hin).
    rewrite E. cbn [negb]. split; [|reflexivity].
    clear Hopt. rule_split; negb_cases; try congruence; reflexivity.
  - intros Hout.
    assert (E : isOptimal k = false) by (rewrite Hopt; apply leb_false, Hout).
    rewrite E. cbn [negb].
    split; [|split; [ring | lra]].
    assert (Hside : 2 < horizontalOffset k \/ horizontalOffset k < -2).
    { destruct (Qlt_le_dec 2 (horizontalOffset k)) as [H | H];
        [left; exact H|].
      destruct (Qlt_le_dec (horizontalOffset k) (-2)) as [H' | H'];
        [right; exact H'|].
      exfalso. apply (Qlt_not_le _ _ Hout).
      apply Qabs_Qle_condition. split; lra. }
    clear Hopt Hout.
    rule_split; negb_cases; reflect_cmp; try congruence;
      try (exfalso; destruct Hside; lra);
      (eexists; split; reflexivity).
Qed.

Lemma computed_kops_recommendation_and_score_witness :
  exists k,
    Route.calculateKOPS Samples.kopsPose (Some 640) = JS.Ok k
    /\ Route.deductKOPS k 100 < 100 - 4.
Proof.
  eexists. split; [reflexivity|].
  refine (proj2 (proj2 (proj2 (computed_kops_recommendation_and_score
                                 Samples.kopsPose (Some 640) _
                                 Samples.sixA Samples.threeA
                                 Samples.consistentA 100 eq_refl) _))).
  unfold Qlt. simpl. lia.
Defined.

(* ------------------------------------------------------------------ *)
(** ** The single-photo path and the JSON dispatch *)

(** X10.  The legacy score is an integer between 0 and 100, and the
    running score never exceeds 100. *)
Theorem legacy_score_is_percentage (angles : PoseAnalysis) :
  (exists n : Z,
      Legacy.calculateLegacyScore angles = inject_Z n
      /\ (0 <= n <= 100)%Z)
  /\ Legacy.scoreBeforeClamp angles <= 100.
Proof.
  split.
  - unfold Legacy.calculateLegacyScore, JS.Math_round.
    apply clamp_is_percentage.
  - unfold Legacy.scoreBeforeClamp, Legacy.deductKnee, Legacy.deductTorso,
      Legacy.deductElbow, JS.Math_abs. cbv zeta.
    pose proof (Qabs_nonneg (kneeAngle angles - 30)).
    pose proof (Qabs_nonneg (torsoAngle angles - 45)).
    pose proof (Qabs_nonneg (elbowAngle angles - 155)).
    destruct (_ || _); destruct (_ || _); destruct (_ || _); lra.
Qed.

(** X11.  Outside the band [25,35] the legacy knee step deducts twice the
    distance to 30, which is exactly 10 points more than the enhanced
    six-o'clock step (twice the distance to the band); inside the band
    neither deducts anything. *)
Theorem legacy_knee_costs_ten_more (angles : PoseAnalysis) (score : Q) :
  (kneeAngle angles < 25 \/ 35 < kneeAngle angles ->
   Legacy.deductKnee angles score
   == Route.deductSixOClockKnee angles score - 10)
  /\ (25 <= kneeAngle angles <= 35 ->
      Legacy.deductKnee angles score = score
      /\ Route.deductSixOClockKnee angles score = score).
Proof.
  unfold Legacy.deductKnee, Route.deductSixOClockKnee,
    JS.Math_min, JS.Math_abs.
  set (k := kneeAngle angles).
  split.
  - intros Hout.
    assert (E : JS.ltb k 25 || JS.gtb k 35 = true).
    { apply orb_true_iff.
      destruct Hout; [left; apply ltb_true | right; apply gtb_true];
        assumption. }
    rewrite E. destruct Hout as [H | H].
    + rewrite (Qabs_neg (k - 30)) by lra.
      rewrite (Qabs_neg (k - 25)) by lra.
      rewrite (Qabs_neg (k - 35)) by lra.
      rewrite Q.min_l by lra. ring.
    + rewrite (Qabs_pos (k - 30)) by lra.
      rewrite (Qabs_pos (k - 25)) by lra.
      rewrite (Qabs_pos (k - 35)) by lra.
      rewrite Q.min_r by lra. ring.
  - intros [Hlo Hhi].
    assert (E : JS.ltb k 25 || JS.gtb k 35 = false).
    { apply orb_false_iff.
      split; [apply ltb_false | apply gtb_false]; assumption. }
    rewrite E. split; reflexivity.
Qed.

(** X12.  The legacy recommendations are the saddle-height
    recommendation of the two-photo engine for the same six-o'clock
    record, up to the wording: same type, current and recommended value,
    priority and basis; there is at most one. *)
Theorem legacy_recommendation_matches_saddle_rule
        (angles three : PoseAnalysis) (k : KOPSAnalysis)
        (c : PosturalConsistency) :
  let essence (r : FitRecommendation) :=
    (type r, currentValue r, recommendedValue r, priority r, basedOn r) in
  List.map essence (Legacy.generateLegacyRecommendations angles)
  = List.map essence
      (filter isSaddleHeight
              (Route.generateEnhancedRecommendations angles three k c))
  /\ (List.length (Legacy.generateLegacyRecommendations angles) <= 1)%nat.
Proof.
  cbv zeta. rewrite sort_keeps_rules.
  unfold Legacy.generateLegacyRecommendations.
  split.
  - rule_split; reflexivity.
  - unfold JS.push. hide_strings. cbv zeta.
    destruct (JS.ltb _ 25); [cbn; lia|].
    destruct (JS.gtb _ 35); cbn; lia.
Qed.

(** X13.  A request of two photos gets a report exactly when the two
    photos carry different pedal positions, and the order of the two does
    not matter; two photos of one position are refused with status
    400. *)
Theorem two_photo_order_irrelevant (p q : PhotoAnalysis) :
  (position p <> position q ->
   Route.enhancedTwoPhotoAnalysis [p; q]
   = Route.enhancedTwoPhotoAnalysis [q; p]
   /\ exists report, Route.enhancedTwoPhotoAnalysis [p; q]
                     = Route.json report)
  /\ (position p = position q ->
      Route.enhancedTwoPhotoAnalysis [p; q]
      = Route.json_error
          "Both 6 o'clock and 3 o'clock photos are required" 400).
Proof.
  unfold Route.enhancedTwoPhotoAnalysis, JS.find. cbn [List.find].
  split.
  - intros Hneq.
    destruct (position p), (position q); try congruence;
      cbn [PedalPosition_eqb]; (split; [reflexivity|]);
      eexists; reflexivity.
  - intros Heq. rewrite Heq.
    destruct (position q); reflexivity.
Qed.

(* ------------------------------------------------------------------ *)
(** ** Geometry and rounding *)

Lemma round1_tenths (v : Q) :
  PoseLib.round1 v == inject_Z (Qfloor (v * 10 + (1 # 2))) / 10.
Proof. reflexivity. Qed.

Lemma round1_mono (v w : Q) : v <= w -> PoseLib.round1 v <= PoseLib.round1 w.
Proof.
  intros H. unfold PoseLib.round1, JS.Math_round.
  assert (Hf : (Qfloor (v * 10 + (1 # 2)) <= Qfloor (w * 10 + (1 # 2)))%Z).
  { apply Qfloor_resp_le. lra. }
  rewrite Zle_Qle in Hf.
  set (a := inject_Z (Qfloor (v * 10 + (1 # 2)))) in *.
  set (b := inject_Z (Qfloor (w * 10 + (1 # 2)))) in *.
  unfold Qdiv. apply Qmult_le_compat_r; [exact Hf|].
  unfold Qle. simpl. lia.
Qed.

Lemma round1_of_tenths (n : Z) :
  PoseLib.round1 (inject_Z n / 10) == inject_Z n / 10.
Proof.
  unfold PoseLib.round1, JS.Math_round.
  assert (E : Qfloor (inject_Z n / 10 * 10 + (1 # 2)) = n).
  { assert (Hv : inject_Z n / 10 * 10 + (1 # 2) == inject_Z n + (1 # 2))
      by field.
    rewrite (Qfloor_comp _ _ Hv).
    pose proof (Qfloor_le (inject_Z n + (1 # 2))) as Hlo.
    pose proof (Qlt_floor (inject_Z n + (1 # 2))) as Hhi.
    set (m := Qfloor (inject_Z n + (1 # 2))) in *.
    rewrite inject_Z_plus in Hhi. change (inject_Z 1) with 1 in Hhi.
    assert (A : inject_Z m < inject_Z (n + 1)).
    { rewrite inject_Z_plus. change (inject_Z 1) with 1. lra. }
    assert (B : inject_Z n < inject_Z (m + 1)).
    { rewrite inject_Z_plus. change (inject_Z 1) with 1. lra. }
    rewrite <- Zlt_Qlt in A, B. lia. }
  rewrite E. reflexivity.
Qed.

(** X14.  [round1] (the [Math.round(v * 10) / 10] of the feature
    extractor) returns a multiple of one tenth that is at most 0.05 away
    from its argument; it is monotone and leaves multiples of one tenth
    unchanged. *)
Theorem round1_nearest_tenth (v : Q) :
  (exists n : Z, PoseLib.round1 v == inject_Z n / 10)
  /\ Qabs (PoseLib.round1 v - v) <= 1 # 20
  /\ PoseLib.round1 (PoseLib.round1 v) == PoseLib.round1 v
  /\ (forall w, v <= w -> PoseLib.round1 v <= PoseLib.round1 w).
Proof.
  split; [|split; [|split]].
  - eexists. apply round1_tenths.
  - rewrite round1_tenths.
    pose proof (Qfloor_le (v * 10 + (1 # 2))) as Hlo.
    pose proof (Qlt_floor (v * 10 + (1 # 2))) as Hhi.
    set (n := Qfloor (v * 10 + (1 # 2))) in *.
    rewrite inject_Z_plus in Hhi. change (inject_Z 1) with 1 in Hhi.
    apply Qabs_Qle_condition.
    assert (E : inject_Z n / 10 == inject_Z n * (1 # 10)) by field.
    rewrite E. split; lra.
  - unfold PoseLib.round1 at 2. unfold JS.Math_round.
    apply round1_of_tenths.
  - intros w. apply round1_mono.
Qed.

Section GeometryFacts.

Variable Math_atan2 : Q -> Q -> Q.
Variable Math_sqrt : Q -> Q.
Variable Math_PI : Q.

Local Abbreviation calculateInteriorAngle :=
  (PoseLib.calculateInteriorAngle Math_atan2 Math_PI).
Local Abbreviation calculateKneeBendAngle :=
  (PoseLib.calculateKneeBendAngle Math_atan2 Math_PI).
Local Abbreviation analyzeBikeFit :=
  (PoseLib.analyzeBikeFit Math_atan2 Math_sqrt Math_PI).

Lemma interior_angle_le_180 (a b c : Landmark) :
  calculateInteriorAngle a b c <= 180.
Proof.
  unfold PoseLib.calculateInteriorAngle. cbv zeta.
  destruct (JS.gtb _ 180) eqn:E; reflect_cmp; lra.
Qed.

(** X15.  Whatever [Math.atan2] returns, the interior angle is at most
    180 and does not change when the two outer points are swapped, and
    the knee bend angle is never negative. *)
Theorem interior_angle_symmetric (a b c : Landmark) :
  calculateInteriorAngle a b c <= 180
  /\ calculateInteriorAngle a b c == calculateInteriorAngle c b a
  /\ 0 <= calculateKneeBendAngle a b c.
Proof.
  split; [apply interior_angle_le_180|]. split.
  - unfold PoseLib.calculateInteriorAngle, JS.Math_abs. cbv zeta.
    set (r := Math_atan2 (y c - y b) (x c - x b)
              - Math_atan2 (y a - y b) (x a - x b)).
    set (r' := Math_atan2 (y a - y b) (x a - x b)
               - Math_atan2 (y c - y b) (x c - x b)).
    assert (E : Qabs (r' * 180 / Math_PI) == Qabs (r * 180 / Math_PI)).
    { assert (E' : r' * 180 / Math_PI == - (r * 180 / Math_PI)).
      { unfold r, r', Qdiv. ring. }
      rewrite E'. apply Qabs_opp. }
    destruct (JS.gtb (Qabs (r * 180 / Math_PI)) 180) eqn:E1;
      destruct (JS.gtb (Qabs (r' * 180 / Math_PI)) 180) eqn:E2;
      reflect_cmp; lra.
  - unfold PoseLib.calculateKneeBendAngle. cbv zeta.
    pose proof (interior_angle_le_180 a b c). lra.
Qed.

Hypothesis PI_positive : 0 < Math_PI.
Hypothesis atan2_range : forall dy dx, - Math_PI <= Math_atan2 dy dx <= Math_PI.

Lemma interior_angle_nonneg (a b c : Landmark) :
  0 <= calculateInteriorAngle a b c.
Proof.
  unfold PoseLib.calculateInteriorAngle, JS.Math_abs. cbv zeta.
  set (r := Math_atan2 (y c - y b) (x c - x b)
            - Math_atan2 (y a - y b) (x a - x b)).
  assert (Hr : - (2 * Math_PI) <= r <= 2 * Math_PI).
  { pose proof (atan2_range (y c - y b) (x c - x b)).
    pose proof (atan2_range (y a - y b) (x a - x b)).
    unfold r. split; lra. }
  set (v := r * 180 / Math_PI).
  assert (Hv : v * Math_PI == r * 180).
  { unfold v. field. intro H. rewrite H in PI_positive. lra. }
  assert (Hbound : Qabs v <= 360).
  { apply Qabs_Qle_condition. split.
    - apply Qnot_lt_le. intro Hlt.
      assert (v * Math_PI < -360 * Math_PI).
      { apply Qmult_lt_compat_r; assumption. }
      lra.
    - apply Qnot_lt_le. intro Hlt.
      assert (360 * Math_PI < v * Math_PI).
      { apply Qmult_lt_compat_r; assumption. }
      lra. }
  pose proof (Qabs_nonneg v).
  destruct (JS.gtb (Qabs v) 180); lra.
Qed.

(** X16.  When [Math.atan2] returns values between [-PI] and [PI], every
    interior angle and every knee bend angle lies between 0 and 180. *)
Theorem angles_between_0_and_180 (a b c : Landmark) :
  0 <= calculateInteriorAngle a b c <= 180
  /\ 0 <= calculateKneeBendAngle a b c <= 180.
Proof.
  pose proof (interior_angle_nonneg a b c).
  pose proof (interior_angle_le_180 a b c).
  unfold PoseLib.calculateKneeBendAngle. cbv zeta. lra.
Qed.

(** X17.  Under the same assumption a feature record returned by
    [analyzeBikeFit] has its three angles between 0 and 180 and a reach
    that is not negative; the record carries the landmark array it was
    computed from. *)
Theorem extracted_angles_in_range
        (lms : list (option Landmark)) (pos : option PedalPosition)
        (img : option PoseLib.HTMLImageElement) (a : PoseAnalysis)
        (Hok : analyzeBikeFit lms pos img = JS.Ok a) :
  0 <= kneeAngle a <= 180
  /\ 0 <= torsoAngle a <= 180
  /\ 0 <= elbowAngle a <= 180
  /\ 0 <= reachDistance a
  /\ landmarks a = Some lms.
Proof.
  unfold PoseLib.analyzeBikeFit in Hok.
  destruct (List.length lms <? 33)%nat; [discriminate Hok|].
  destruct (JS.get lms PoseLib.RIGHT_SHOULDER) as [shoulder|];
    [|discriminate Hok].
  destruct (JS.get lms PoseLib.RIGHT_ELBOW) as [elbow|];
    [|discriminate Hok].
  destruct (JS.get lms PoseLib.RIGHT_WRIST) as [wrist|];
    [|discriminate Hok].
  destruct (JS.get lms PoseLib.RIGHT_HIP) as [hip|]; [|discriminate Hok].
  destruct (JS.get lms PoseLib.RIGHT_KNEE) as [knee|]; [|discriminate Hok].
  destruct (JS.get lms PoseLib.RIGHT_ANKLE) as [ankle|];
    [|discriminate Hok].
  injection Hok as <-.
  cbn [kneeAngle torsoAngle elbowAngle reachDistance landmarks].
  assert (R0 : PoseLib.round1 0 == 0) by reflexivity.
  assert (R180 : PoseLib.round1 180 == 180) by reflexivity.
  assert (Hround : forall v, 0 <= v <= 180 ->
                             0 <= PoseLib.round1 v <= 180).
  { intros v [Hlo Hhi]. split.
    - rewrite <- R0. apply round1_mono, Hlo.
    - rewrite <- R180. apply round1_mono, Hhi. }
  split; [apply Hround, angles_between_0_and_180|].
  split; [apply Hround, angles_between_0_and_180|].
  split; [apply Hround, angles_between_0_and_180|].
  split; [|reflexivity].
  rewrite <- R0. apply round1_mono.
  change (0 <= Qabs (x shoulder - x wrist) * 100).
  pose proof (Qabs_nonneg (x shoulder - x wrist)). lra.
Qed.

End GeometryFacts.

Lemma angles_between_0_and_180_witness :
  let atan2 := fun dy dx : Q => if JS.ltb dx 0 then 3 else 0 in
  0 <= PoseLib.calculateInteriorAngle atan2 (355 # 113)
         (Samples.point 0.1 0.2) (Samples.point 0.5 0.5)
         (Samples.point 0.9 0.2) <= 180.
Proof.
  cbv zeta.
  refine (proj1 (angles_between_0_and_180
                   (fun dy dx : Q => if JS.ltb dx 0 then 3 else 0)
                   (355 # 113) _ _ _ _ _)).
  - unfold Qlt. simpl. lia.
  - intros dy dx. destruct (JS.ltb dx 0); split; unfold Qle; simpl; lia.
Defined.

Lemma extracted_angles_in_range_witness :
  let atan2 := fun dy dx : Q => if JS.ltb dx 0 then 3 else 0 in
  exists a,
    PoseLib.analyzeBikeFit atan2 (fun v => v) (355 # 113)
                           Samples.fullPose None None = JS.Ok a
    /\ 0 <= kneeAngle a <= 180.
Proof.
  cbv zeta. eexists. split; [reflexivity|].
  refine (proj1 (extracted_angles_in_range
                   (fun dy dx : Q => if JS.ltb dx 0 then 3 else 0)
                   (fun v => v) (355 # 113) _ _
                   Samples.fullPose None None _ eq_refl)).
  - unfold Qlt. simpl. lia.
  - intros dy dx. destruct (JS.ltb dx 0); split; unfold Qle; simpl; lia.
Defined.

(* ------------------------------------------------------------------ *)
(** ** Pose validation and the result handler *)

Lemma checkKeyLandmarks_spec (lms : list (option Landmark))
      (indices : list nat) :
  PoseValidation.checkKeyLandmarks lms indices []
  = if List.existsb (PoseValidation.notClearlyVisible lms) indices
    then [PoseValidation.notVisibleIssue] else [].
Proof.
  induction indices as [|i rest IH]; cbn.
  - reflexivity.
  - destruct (PoseValidation.notClearlyVisible lms i); [reflexivity|].
    exact IH.
Qed.

Lemma clearly_visible_present (lms : list (option Landmark)) (i : nat) :
  PoseValidation.notClearlyVisible lms i = false ->
  exists lm, JS.get lms i = Some lm.
Proof.
  unfold PoseValidation.notClearlyVisible.
  destruct (JS.get lms i) as [lm|]; [|discriminate].
  intros _. exists lm. reflexivity.
Qed.

Section ValidationFacts.

Variable Math_atan2 : Q -> Q -> Q.
Variable Math_sqrt : Q -> Q.
Variable Math_PI : Q.

Local Abbreviation validatePoseForBikeFit :=
  (PoseValidation.validatePoseForBikeFit Math_sqrt).
Local Abbreviation analyzeBikeFit :=
  (PoseLib.analyzeBikeFit Math_atan2 Math_sqrt Math_PI).
Local Abbreviation onResults :=
  (PoseDetection.onResults Math_atan2 Math_sqrt Math_PI).

(** X18.  [validatePoseForBikeFit] accepts a pose exactly when it has at
    least 33 landmarks, each of the six right-side joints is present
    with a visibility that is absent or at least 0.5, and the two
    shoulders, when both are present, are at most 0.15 apart.  It is
    valid exactly when it reports no issue, it reports at most two, and
    a short array is reported as "No pose detected" only. *)
Theorem validation_accepts_iff (lms : list (option Landmark)) :
  let v := validatePoseForBikeFit lms in
  (PoseValidation.isValid v = true
   <-> (33 <= List.length lms)%nat
       /\ (forall i, In i PoseValidation.keyLandmarks ->
                     exists lm, JS.get lms i = Some lm
                                /\ (visibility lm = None
                                    \/ exists vis, visibility lm = Some vis
                                                   /\ 0.5 <= vis))
       /\ (forall l r, JS.get lms PoseLib.LEFT_SHOULDER = Some l ->
                       JS.get lms PoseLib.RIGHT_SHOULDER = Some r ->
                       PoseLib.calculateDistance Math_sqrt l r <= 0.15))
  /\ (PoseValidation.isValid v = true <-> PoseValidation.issues v = [])
  /\ (List.length (PoseValidation.issues v) <= 2)%nat
  /\ ((List.length lms < 33)%nat ->
      PoseValidation.issues v = ["No pose detected"%string]).
Proof.
  cbv zeta. unfold PoseValidation.validatePoseForBikeFit. cbv zeta.
  rewrite checkKeyLandmarks_spec.
  destruct (List.length lms <? 33)%nat eqn:Hlen.
  - apply Nat.ltb_lt in Hlen.
    cbn [PoseValidation.isValid PoseValidation.issues].
    split; [|split; [|split]].
    + split; [discriminate|]. intros [H _]. lia.
    + split; discriminate.
    + cbn. lia.
    + reflexivity.
  - apply Nat.ltb_ge in Hlen.
    assert (Hvis :
              List.existsb (PoseValidation.notClearlyVisible lms)
                           PoseValidation.keyLandmarks = false
              <-> forall i, In i PoseValidation.keyLandmarks ->
                            exists lm, JS.get lms i = Some lm
                                       /\ (visibility lm = None
                                           \/ exists vis,
                                               visibility lm = Some vis
                                               /\ 0.5 <= vis)).
    { split.
      - intros Hex i Hi.
        assert (Hi' : PoseValidation.notClearlyVisible lms i = false).
        { destruct (PoseValidation.notClearlyVisible lms i) eqn:E;
            [|reflexivity].
          assert (List.existsb (PoseValidation.notClearlyVisible lms)
                               PoseValidation.keyLandmarks = true).
          { apply existsb_exists. exists i. split; assumption. }
          congruence. }
        unfold PoseValidation.notClearlyVisible in Hi'.
        destruct (JS.get lms i) as [lm|]; [|discriminate Hi'].
        exists lm. split; [reflexivity|].
        destruct (visibility lm) as [vis|]; [|left; reflexivity].
        right. exists vis. split; [reflexivity|].
        apply ltb_false. exact Hi'.
      - intros Hall.
        destruct (List.existsb _ _) eqn:E; [|reflexivity].
        apply existsb_exists in E. destruct E as [i [Hi Hbad]].
        destruct (Hall i Hi) as [lm [Hlm Hv]].
        unfold PoseValidation.notClearlyVisible in Hbad.
        rewrite Hlm in Hbad.
        destruct Hv as [Hv | [vis [Hv Hge]]]; rewrite Hv in Hbad;
          [discriminate Hbad|].
        apply ltb_true in Hbad. lra. }
    set (bE := List.existsb (PoseValidation.notClearlyVisible lms)
                            PoseValidation.keyLandmarks) in *.
    pose (bS := match JS.get lms PoseLib.LEFT_SHOULDER,
                      JS.get lms PoseLib.RIGHT_SHOULDER with
                | Some l, Some r =>
                    JS.gtb (PoseLib.calculateDistance Math_sqrt l r) 0.15
                | _, _ => false
                end).
    assert (HS : bS = false
                 <-> forall l r,
                     JS.get lms PoseLib.LEFT_SHOULDER = Some l ->
                     JS.get lms PoseLib.RIGHT_SHOULDER = Some r ->
                     PoseLib.calculateDistance Math_sqrt l r <= 0.15).
    { unfold bS.
      destruct (JS.get lms PoseLib.LEFT_SHOULDER) as [l|];
        destruct (JS.get lms PoseLib.RIGHT_SHOULDER) as [r|];
        try (split; [intros _ l' r' Hl Hr; discriminate | reflexivity]).
      split.
      - intros Hd l' r' Hl Hr. injection Hl as <-. injection Hr as <-.
        apply gtb_false. exact Hd.
      - intros Hall. apply gtb_false. apply Hall; reflexivity. }
    match goal with
    | |- context [PoseValidation.mkValidation _ ?iss] =>
        assert (Hiss : iss = (if bE then [PoseValidation.notVisibleIssue]
                              else [])
                             ++ (if bS then [PoseValidation.sideViewIssue]
                                 else []))
    end.
    { unfold bS, JS.push.
      destruct (JS.get lms PoseLib.LEFT_SHOULDER) as [l|];
        destruct (JS.get lms PoseLib.RIGHT_SHOULDER) as [r|];
        try destruct (JS.gtb _ 0.15); destruct bE; reflexivity. }
    rewrite Hiss. clear Hiss. clearbody bS.
    cbn [PoseValidation.isValid PoseValidation.issues].
    split; [|split; [|split]].
    + destruct bE, bS; cbn [app List.length Nat.eqb]; split;
        try discriminate;
        try (intros [_ [Hall Hsh]];
             first [ apply Hvis in Hall; discriminate Hall
                   | apply HS in Hsh; discriminate Hsh ]);
        try (intros _; reflexivity).
      intros _. split; [exact Hlen|].
      split; [apply Hvis | apply HS]; reflexivity.
    + destruct bE, bS; cbn [app List.length Nat.eqb]; split;
        (discriminate || reflexivity).
    + destruct bE, bS; cbn; lia.
    + intros Hshort. lia.
Qed.

(** X19.  A pose that [validatePoseForBikeFit] accepts is one that
    [analyzeBikeFit] turns into a feature record: validation never lets
    through a pose on which the extraction throws. *)
Theorem valid_pose_is_analyzed
        (lms : list (option Landmark)) (pos : option PedalPosition)
        (img : option PoseLib.HTMLImageElement)
        (Hvalid : PoseValidation.isValid (validatePoseForBikeFit lms) = true) :
  exists a, analyzeBikeFit lms pos img = JS.Ok a.
Proof.
  unfold PoseValidation.validatePoseForBikeFit in Hvalid. cbv zeta in Hvalid.
  rewrite checkKeyLandmarks_spec in Hvalid.
  unfold PoseLib.analyzeBikeFit.
  destruct (List.length lms <? 33)%nat; [discriminate Hvalid|].
  cbn [PoseValidation.isValid] in Hvalid.
  destruct (List.existsb (PoseValidation.notClearlyVisible lms)
                         PoseValidation.keyLandmarks) eqn:Hex.
  - exfalso.
    destruct (JS.get lms PoseLib.LEFT_SHOULDER);
      destruct (JS.get lms PoseLib.RIGHT_SHOULDER);
      try destruct (JS.gtb _ 0.15); discriminate Hvalid.
  - assert (Hall : forall i, In i PoseValidation.keyLandmarks ->
                             exists lm, JS.get lms i = Some lm).
    { intros i Hi. apply clearly_visible_present.
      destruct (PoseValidation.notClearlyVisible lms i) eqn:E;
        [|reflexivity].
      assert (List.existsb (PoseValidation.notClearlyVisible lms)
                           PoseValidation.keyLandmarks = true).
      { apply existsb_exists. exists i. split; assumption. }
      congruence. }
    destruct (Hall PoseLib.RIGHT_SHOULDER) as [a Ha]; [cbn; tauto|].
    destruct (Hall PoseLib.RIGHT_ELBOW) as [b Hb]; [cbn; tauto|].
    destruct (Hall PoseLib.RIGHT_WRIST) as [c Hc]; [cbn; tauto|].
    destruct (Hall PoseLib.RIGHT_HIP) as [d Hd]; [cbn; tauto|].
    destruct (Hall PoseLib.RIGHT_KNEE) as [e He]; [cbn; tauto|].
    destruct (Hall PoseLib.RIGHT_ANKLE) as [f Hf]; [cbn; tauto|].
    rewrite Ha, Hb, Hc, Hd, He, Hf. eexists. reflexivity.
Qed.

(** X20.  The result handler of [processImageForBikeFit] rejects with the
    "No pose detected" message exactly when the detector returned no
    landmark, and with the extraction error prefixed by "Failed to
    analyze bike fit: " when [analyzeBikeFit] throws; otherwise it
    resolves to the record of [analyzeBikeFit] for the given pedal
    position, with the same measurements and the encoded image
    attached. *)
Theorem result_handler_outcomes
        (poseLandmarks : option (list (option Landmark)))
        (pos : PedalPosition) (img : PoseLib.HTMLImageElement)
        (dataURL : option string) :
  let lms := match poseLandmarks with Some l => l | None => [] end in
  (lms = [] ->
   onResults poseLandmarks pos img dataURL
   = JS.Err PoseDetection.noPoseMessage)
  /\ (lms <> [] ->
      forall message,
        analyzeBikeFit lms (Some pos) (Some img) = JS.Err message ->
        onResults poseLandmarks pos img dataURL
        = JS.Err ("Failed to analyze bike fit: " ++ message))
  /\ (lms <> [] ->
      forall a,
        analyzeBikeFit lms (Some pos) (Some img) = JS.Ok a ->
        exists a',
          onResults poseLandmarks pos img dataURL = JS.Ok a'
          /\ measurements a' = measurements a
          /\ landmarks a' = Some lms
          /\ pedalPosition a' = Some pos
          /\ (forall url, dataURL = Some url -> imageData a' = Some url)).
Proof.
  cbv zeta. unfold PoseDetection.onResults.
  destruct poseLandmarks as [[|first rest]|].
  - split; [reflexivity|]. split; intros H; contradiction.
  - split; [discriminate|]. split; intros _.
    + intros message Hm. rewrite Hm. reflexivity.
    + intros a Ha. rewrite Ha.
      assert (Hl : landmarks a = Some (first :: rest)
                   /\ pedalPosition a = Some pos).
      { unfold PoseLib.analyzeBikeFit in Ha.
        destruct (List.length (first :: rest) <? 33)%nat;
          [discriminate Ha|].
        repeat match type of Ha with
          | context [match JS.get ?l ?j with _ => _ end] =>
              destruct (JS.get l j); [|discriminate Ha]
          end.
        injection Ha as <-. split; reflexivity. }
      destruct Hl as [Hl Hp].
      destruct dataURL as [url|]; eexists; (split; [reflexivity|]).
      * destruct a. cbn in *. repeat split; try assumption.
        intros url' E. injection E as <-. reflexivity.
      * repeat split; try assumption. intros url E. discriminate E.
  - split; [reflexivity|]. split; intros H; contradiction.
Qed.

End ValidationFacts.

Lemma valid_pose_is_analyzed_witness :
  exists a,
    PoseLib.analyzeBikeFit (fun _ _ => 0) (fun v => v) 3
                           Samples.fullPose None None = JS.Ok a.
Proof.
  exact (valid_pose_is_analyzed (fun _ _ => 0) (fun v => v) 3
                                Samples.fullPose None None eq_refl).
Defined.

(* ------------------------------------------------------------------ *)
(** ** The upload page *)

Lemma PedalPosition_eqb_eq (a b : PedalPosition) :
  PedalPosition_eqb a b = true <-> a = b.
Proof. destruct a, b; split; (reflexivity || discriminate). Qed.

Lemma PedalPosition_eqb_neq (a b : PedalPosition) :
  PedalPosition_eqb a b = false <-> a <> b.
Proof. destruct a, b; split; (reflexivity || discriminate || congruence). Qed.

Lemma lookup_after_remove (pos : PedalPosition)
      (photos : list UploadPage.PhotoUpload) :
  UploadPage.getPhotoByPosition (UploadPage.removePhoto pos photos) pos
  = None.
Proof.
  unfold UploadPage.getPhotoByPosition, UploadPage.removePhoto, JS.find.
  induction photos as [|p l IH]; cbn; [reflexivity|].
  destruct (PedalPosition_eqb (UploadPage.position p) pos) eqn:E; cbn.
  - exact IH.
  - rewrite E. exact IH.
Qed.

Lemma lookup_other_after_remove (pos q : PedalPosition)
      (photos : list UploadPage.PhotoUpload) :
  q <> pos ->
  UploadPage.getPhotoByPosition (UploadPage.removePhoto pos photos) q
  = UploadPage.getPhotoByPosition photos q.
Proof.
  intros Hq.
  unfold UploadPage.getPhotoByPosition, UploadPage.removePhoto, JS.find.
  induction photos as [|p l IH]; cbn; [reflexivity|].
  destruct (PedalPosition_eqb (UploadPage.position p) pos) eqn:E; cbn.
  - apply PedalPosition_eqb_eq in E.
    assert (E' : PedalPosition_eqb (UploadPage.position p) q = false).
    { apply PedalPosition_eqb_neq. congruence. }
    rewrite E'. exact IH.
  - destruct (PedalPosition_eqb (UploadPage.position p) q); [reflexivity|].
    exact IH.
Qed.

Lemma find_app_none {A : Type} (f : A -> bool) (l l' : list A) :
  List.find f l = None -> List.find f (l ++ l') = List.find f l'.
Proof.
  induction l as [|a l IH]; cbn; [reflexivity|].
  destruct (f a); [discriminate|]. exact IH.
Qed.

Lemma find_app_some {A : Type} (f : A -> bool) (l l' : list A) (a : A) :
  List.find f l = Some a -> List.find f (l ++ l') = Some a.
Proof.
  induction l as [|b l IH]; cbn; [discriminate|].
  destruct (f b); [auto|]. exact IH.
Qed.

Lemma select_valid (files : list UploadPage.File) (pos : PedalPosition)
      (photos : list UploadPage.PhotoUpload)
      (first : UploadPage.File) (others : list UploadPage.File) :
  List.filter UploadPage.isValidFile files = first :: others ->
  UploadPage.handleFileSelect (Some files) pos photos
  = UploadPage.removePhoto pos photos
    ++ [UploadPage.mkPhotoUpload first pos None].
Proof.
  intros Hvalid. unfold UploadPage.handleFileSelect.
  destruct files as [|f fs]; [discriminate Hvalid|].
  cbn [List.length Nat.eqb]. rewrite Hvalid. reflexivity.
Qed.

Lemma select_invalid (files : option (list UploadPage.File))
      (pos : PedalPosition) (photos : list UploadPage.PhotoUpload) :
  match files with
  | Some fs => List.filter UploadPage.isValidFile fs = []
  | None => True
  end ->
  UploadPage.handleFileSelect files pos photos = photos.
Proof.
  unfold UploadPage.handleFileSelect.
  destruct files as [fs|]; [|reflexivity].
  intros H. destruct (List.length fs =? 0)%nat; [reflexivity|].
  rewrite H. reflexivity.
Qed.

(** X21.  Selecting files for a pedal position stores the first valid
    one (an image of at most 10 MB) under that position, replacing the
    photo that was there, and leaves the other position untouched; with
    no valid file, or no file at all, the state does not change. *)
Theorem select_stores_first_valid_file
        (pos : PedalPosition) (photos : list UploadPage.PhotoUpload) :
  (forall files first others,
      List.filter UploadPage.isValidFile files = first :: others ->
      let photos' := UploadPage.handleFileSelect (Some files) pos photos in
      UploadPage.getPhotoByPosition photos' pos
      = Some (UploadPage.mkPhotoUpload first pos None)
      /\ (forall q, q <> pos ->
                    UploadPage.getPhotoByPosition photos' q
                    = UploadPage.getPhotoByPosition photos q)
      /\ UploadPage.isValidFile first = true)
  /\ (forall files,
         List.filter UploadPage.isValidFile files = [] ->
         UploadPage.handleFileSelect (Some files) pos photos = photos)
  /\ UploadPage.handleFileSelect None pos photos = photos.
Proof.
  split; [|split].
  - intros files first others Hvalid. cbv zeta.
    rewrite (select_valid _ _ _ _ _ Hvalid).
    split; [|split].
    + unfold UploadPage.getPhotoByPosition, JS.find.
      rewrite find_app_none by apply lookup_after_remove.
      cbn. destruct pos; reflexivity.
    + intros q Hq.
      unfold UploadPage.getPhotoByPosition, JS.find.
      destruct (List.find
                  (fun p => PedalPosition_eqb (UploadPage.position p) q)
                  (UploadPage.removePhoto pos photos)) as [p|] eqn:E.
      * rewrite (find_app_some _ _ _ _ E). rewrite <- E.
        apply (lookup_other_after_remove pos q photos Hq).
      * rewrite (find_app_none _ _ _ E). cbn.
        assert (E' : PedalPosition_eqb pos q = false).
        { apply PedalPosition_eqb_neq. congruence. }
        rewrite E'. rewrite <- E.
        apply (lookup_other_after_remove pos q photos Hq).
    + assert (Hin : In first (List.filter UploadPage.isValidFile files)).
      { rewrite Hvalid. left. reflexivity. }
      apply filter_In in Hin. apply Hin.
  - intros files H. apply (select_invalid (Some files)). exact H.
  - reflexivity.
Qed.

(** X22.  Removing a pedal position leaves no photo under it and does not
    touch the other position; removing right after selecting for the
    same position gives the state that removing alone gives. *)
Theorem remove_forgets_position
        (pos : PedalPosition) (photos : list UploadPage.PhotoUpload) :
  UploadPage.getPhotoByPosition (UploadPage.removePhoto pos photos) pos
  = None
  /\ (forall q, q <> pos ->
                UploadPage.getPhotoByPosition
                  (UploadPage.removePhoto pos photos) q
                = UploadPage.getPhotoByPosition photos q)
  /\ (forall files,
         UploadPage.removePhoto
           pos (UploadPage.handleFileSelect files pos photos)
         = UploadPage.removePhoto pos photos).
Proof.
  split; [apply lookup_after_remove|].
  split; [intros q; apply lookup_other_after_remove|].
  intros files.
  assert (Hidem : UploadPage.removePhoto pos
                    (UploadPage.removePhoto pos photos)
                  = UploadPage.removePhoto pos photos).
  { unfold UploadPage.removePhoto.
    induction photos as [|p l IH]; cbn; [reflexivity|].
    destruct (PedalPosition_eqb (UploadPage.position p) pos) eqn:E; cbn.
    - exact IH.
    - rewrite E. cbn. rewrite IH. reflexivity. }
  destruct files as [fs|]; [|reflexivity].
  destruct (List.filter UploadPage.isValidFile fs) as [|first others] eqn:Hv.
  - rewrite (select_invalid (Some fs)) by exact Hv. reflexivity.
  - rewrite (select_valid _ _ _ _ _ Hv).
    unfold UploadPage.removePhoto at 1. rewrite filter_app.
    cbn [List.filter UploadPage.position].
    rewrite (proj2 (PedalPosition_eqb_eq pos pos) eq_refl). cbn [negb].
    rewrite app_nil_r. exact Hidem.
Qed.

Lemma remove_keeps_invariant (pos : PedalPosition)
      (photos : list UploadPage.PhotoUpload) :
  NoDup (List.map UploadPage.position photos) ->
  NoDup (List.map UploadPage.position (UploadPage.removePhoto pos photos))
  /\ ~ In pos (List.map UploadPage.position
                        (UploadPage.removePhoto pos photos)).
Proof.
  unfold UploadPage.removePhoto.
  induction photos as [|p l IH]; cbn; intros Hnd.
  - split; [constructor | intros []].
  - inversion Hnd as [|? ? Hnotin Hnd']; subst.
    destruct (IH Hnd') as [IH1 IH2].
    destruct (PedalPosition_eqb (UploadPage.position p) pos) eqn:E; cbn.
    + split; assumption.
    + apply PedalPosition_eqb_neq in E. split.
      * constructor; [|exact IH1].
        intros Hin. apply Hnotin. apply in_map_iff in Hin.
        destruct Hin as [p' [Hp' Hin]]. apply filter_In in Hin.
        apply in_map_iff. exists p'. split; [exact Hp' | apply Hin].
      * intros [H | H]; [congruence | exact (IH2 H)].
Qed.

Lemma distinct_positions_at_most_two (l : list PedalPosition) :
  NoDup l -> (List.length l <= 2)%nat.
Proof.
  intros Hnd.
  destruct l as [|a [|b [|c l]]]; cbn; try lia.
  exfalso.
  inversion Hnd as [|? ? Ha Hnd1]; subst.
  inversion Hnd1 as [|? ? Hb Hnd2]; subst.
  cbn in Ha, Hb. destruct a, b, c; tauto.
Qed.

Lemma reachable_invariant (photos : list UploadPage.PhotoUpload) :
  UploadPage.reachable photos ->
  NoDup (List.map UploadPage.position photos)
  /\ (forall p, In p photos ->
                UploadPage.isValidFile (UploadPage.file p) = true
                /\ UploadPage.analysis p = None).
Proof.
  induction 1 as [|files pos photos Hr [IHnd IHv]
                  |pos photos Hr [IHnd IHv]].
  - split; [constructor | intros p []].
  - destruct files as [fs|]; [|split; assumption].
    destruct (List.filter UploadPage.isValidFile fs)
      as [|first others] eqn:Hv.
    + rewrite (select_invalid (Some fs)) by exact Hv. split; assumption.
    + rewrite (select_valid _ _ _ _ _ Hv).
      destruct (remove_keeps_invariant pos photos IHnd) as [Hnd Hnot].
      split.
      * rewrite map_app. cbn.
        apply Permutation_NoDup with
          (l := pos :: List.map UploadPage.position
                          (UploadPage.removePhoto pos photos)).
        { apply Permutation_cons_append. }
        constructor; assumption.
      * intros p Hp. apply in_app_or in Hp. destruct Hp as [Hp | Hp].
        { apply IHv. unfold UploadPage.removePhoto in Hp.
          apply filter_In in Hp. apply Hp. }
        { destruct Hp as [<- | []]. cbn. split; [|reflexivity].
          assert (Hin : In first (List.filter UploadPage.isValidFile fs)).
          { rewrite Hv. left. reflexivity. }
          apply filter_In in Hin. apply Hin. }
  - split.
    + apply remove_keeps_invariant, IHnd.
    + intros p Hp. apply IHv. unfold UploadPage.removePhoto in Hp.
      apply filter_In in Hp. apply Hp.
Qed.

(** X23.  In every state the page can reach from the empty array there
    is at most one photo per pedal position, hence at most two photos;
    every stored file is a valid one and no photo carries an analysis
    yet.  In such a state the page has the required photos exactly when
    it holds two. *)
Theorem upload_state_invariant (photos : list UploadPage.PhotoUpload)
        (Hreach : UploadPage.reachable photos) :
  NoDup (List.map UploadPage.position photos)
  /\ (List.length photos <= 2)%nat
  /\ (forall p, In p photos ->
                UploadPage.isValidFile (UploadPage.file p) = true
                /\ UploadPage.analysis p = None)
  /\ (UploadPage.hasRequiredPhotos photos = true
      <-> List.length photos = 2%nat).
Proof.
  pose proof (reachable_invariant photos Hreach) as Hinv.
  destruct Hinv as [Hnd Hvalid].
  split; [exact Hnd|].
  assert (Hlen : (List.length photos <= 2)%nat).
  { rewrite <- (length_map UploadPage.position).
    apply distinct_positions_at_most_two, Hnd. }
  split; [exact Hlen|]. split; [exact Hvalid|].
  unfold UploadPage.hasRequiredPhotos. split.
  - intros H. apply andb_true_iff in H. destruct H as [H _].
    apply andb_true_iff in H. destruct H as [H _].
    apply Nat.eqb_eq. exact H.
  - intros H2.
    destruct photos as [|p [|q [|r l]]]; try discriminate H2.
    cbn in Hnd. inversion Hnd as [|? ? Hp _]; subst.
    cbn in Hp. cbn.
    destruct (UploadPage.position p), (UploadPage.position q);
      cbn; try reflexivity; exfalso; apply Hp; left; reflexivity.
Qed.

Lemma upload_state_invariant_witness :
  let image := UploadPage.mkFile "six.jpg" "image/jpeg" 2048 in
  let photos :=
    UploadPage.handleFileSelect
      (Some [image]) three_oclock
      (UploadPage.handleFileSelect (Some [image]) six_oclock []) in
  List.length photos = 2%nat
  /\ UploadPage.hasRequiredPhotos photos = true.
Proof.
  cbv zeta. split; [reflexivity|].
  destruct (upload_state_invariant
              (UploadPage.handleFileSelect
                 (Some [UploadPage.mkFile "six.jpg" "image/jpeg" 2048])
                 three_oclock
                 (UploadPage.handleFileSelect
                    (Some [UploadPage.mkFile "six.jpg" "image/jpeg" 2048])
                    six_oclock []))) as [_ [_ [_ Hrequired]]].
  - apply UploadPage.reachable_select, UploadPage.reachable_select,
      UploadPage.reachable_initial.
  - apply Hrequired. reflexivity.
Defined.

Lemma distinct_positions_report (p q : PhotoAnalysis) :
  position p <> position q ->
  exists report, Route.enhancedTwoPhotoAnalysis [p; q] = Route.json report.
Proof.
  intros Hneq. unfold Route.enhancedTwoPhotoAnalysis, JS.find.
  cbn [List.find].
  destruct (position p), (position q); try congruence;
    cbn [PedalPosition_eqb]; eexists; reflexivity.
Qed.

Section AnalyzeFacts.

Variable processImageForBikeFit :
  UploadPage.File -> PedalPosition -> JS.Result PoseAnalysis.

Local Abbreviation handleAnalyze :=
  (UploadPage.handleAnalyze processImageForBikeFit).
Local Abbreviation analyzeEach :=
  (UploadPage.analyzeEach processImageForBikeFit).

Lemma analyzeEach_positions
      (photos : list UploadPage.PhotoUpload)
      (done result : list (UploadPage.PhotoUpload * PoseAnalysis)) :
  analyzeEach photos done = JS.Ok result ->
  List.map (fun p => UploadPage.position (fst p)) result
  = List.map (fun p => UploadPage.position (fst p)) done
    ++ List.map UploadPage.position photos.
Proof.
  revert done. induction photos as [|photo rest IH]; cbn; intros done H.
  - injection H as <-. rewrite app_nil_r. reflexivity.
  - destruct (processImageForBikeFit _ _) as [a|m]; [|discriminate H].
    rewrite (IH _ H). unfold JS.push. rewrite map_app. cbn.
    rewrite <- app_assoc. reflexivity.
Qed.

Lemma analyzeEach_succeeds
      (photos : list UploadPage.PhotoUpload)
      (done : list (UploadPage.PhotoUpload * PoseAnalysis)) :
  (forall p, In p photos ->
             exists a, processImageForBikeFit (UploadPage.file p)
                                              (UploadPage.position p)
                       = JS.Ok a) ->
  exists result, analyzeEach photos done = JS.Ok result.
Proof.
  revert done. induction photos as [|photo rest IH]; cbn; intros done H.
  - eexists. reflexivity.
  - destruct (H photo (or_introl eq_refl)) as [a Ha]. rewrite Ha.
    apply IH. intros p Hp. apply H. right. exact Hp.
Qed.

(** X24.  From a reachable state holding two photos, with MediaPipe
    ready and both photos analysed successfully, [handleAnalyze] sends a
    request whose photos carry the positions of the stored ones, and the
    JSON branch of [POST] answers that request with a report: the API
    never refuses what the page sends.  With fewer than two photos, or
    MediaPipe not ready, nothing is sent. *)
Theorem page_request_is_answered
        (photos : list UploadPage.PhotoUpload)
        (Hreach : UploadPage.reachable photos) :
  ((2 <= List.length photos)%nat ->
   (forall p, In p photos ->
              exists a, processImageForBikeFit (UploadPage.file p)
                                               (UploadPage.position p)
                        = JS.Ok a) ->
   exists body sent report,
     handleAnalyze photos true = UploadPage.requested body
     /\ Legacy.body_photos body = Some sent
     /\ List.map position sent = List.map UploadPage.position photos
     /\ Legacy.POST_json body = Legacy.enhanced (Route.json report))
  /\ ((List.length photos < 2)%nat ->
      forall ready, handleAnalyze photos ready = UploadPage.notStarted)
  /\ handleAnalyze photos false = UploadPage.notStarted.
Proof.
  split; [|split].
  - intros Hlen Hok.
    assert (Hnd : NoDup (List.map UploadPage.position photos)
                  /\ (List.length photos <= 2)%nat).
    { clear Hlen Hok.
      destruct (reachable_invariant photos Hreach) as [Hnd _].
      split; [exact Hnd|].
      rewrite <- (length_map UploadPage.position).
      apply distinct_positions_at_most_two, Hnd. }
    destruct Hnd as [Hnd Hle].
    destruct photos as [|p [|q [|r l]]]; cbn in Hlen, Hle; try lia.
    destruct (analyzeEach_succeeds [p; q] [] Hok) as [result Hres].
    pose proof (analyzeEach_positions _ _ _ Hres) as Hpos.
    cbn in Hpos.
    unfold UploadPage.handleAnalyze. cbn [List.length Nat.ltb Nat.leb orb negb].
    rewrite Hres.
    destruct result as [|[p1 a1] [|[p2 a2] [|r3 l3]]]; try discriminate Hpos.
    injection Hpos as Hp1 Hp2. cbn in Hp1, Hp2.
    assert (Hneq : UploadPage.position p1 <> UploadPage.position p2).
    { rewrite Hp1, Hp2. inversion Hnd as [|? ? Hnotin _]; subst.
      intros E. apply Hnotin. left. symmetry. exact E. }
    destruct (distinct_positions_report
                (mkPhotoAnalysis (UploadPage.position p1) a1)
                (mkPhotoAnalysis (UploadPage.position p2) a2) Hneq)
      as [report Hreport].
    eexists. eexists. exists report.
    split; [reflexivity|]. split; [reflexivity|].
    split; [cbn; rewrite Hp1, Hp2; reflexivity|].
    unfold Legacy.POST_json, Legacy.isTwoPhotoRequest.
    cbn [Legacy.body_photos List.map List.length Nat.eqb fst snd].
    rewrite Hreport. reflexivity.
  - intros Hlen ready. unfold UploadPage.handleAnalyze.
    apply Nat.ltb_lt in Hlen. rewrite Hlen. reflexivity.
  - unfold UploadPage.handleAnalyze. rewrite orb_true_r. reflexivity.
Qed.

End AnalyzeFacts.

Lemma page_request_is_answered_witness :
  let image := UploadPage.mkFile "six.jpg" "image/jpeg" 2048 in
  let photos :=
    UploadPage.handleFileSelect
      (Some [image]) three_oclock
      (UploadPage.handleFileSelect (Some [image]) six_oclock []) in
  exists body sent report,
    UploadPage.handleAnalyze (fun _ _ => JS.Ok Samples.sixA) photos true
    = UploadPage.requested body
    /\ Legacy.body_photos body = Some sent
    /\ List.map position sent = List.map UploadPage.position photos
    /\ Legacy.POST_json body = Legacy.enhanced (Route.json report).
Proof.
  cbv zeta.
  refine (proj1 (page_request_is_answered
                   (fun _ _ => JS.Ok Samples.sixA)
                   (UploadPage.handleFileSelect
                      (Some [UploadPage.mkFile "six.jpg" "image/jpeg" 2048])
                      three_oclock
                      (UploadPage.handleFileSelect
                         (Some [UploadPage.mkFile "six.jpg" "image/jpeg"
                                                  2048])
                         six_oclock [])) _) _ _).
  - apply UploadPage.reachable_select, UploadPage.reachable_select,
      UploadPage.reachable_initial.
  - simpl. lia.
  - intros p _. eexists. reflexivity.
Defined.

Section FailureMessages.

Variable Math_atan2 : Q -> Q -> Q.
Variable Math_sqrt : Q -> Q.
Variable Math_PI : Q.

Lemma analyzeBikeFit_messages
      (lms : list (option Landmark)) (pos : option PedalPosition)
      (img : option PoseLib.HTMLImageElement) (message : string) :
  PoseLib.analyzeBikeFit Math_atan2 Math_sqrt Math_PI lms pos img
  = JS.Err message ->
  message = "Insufficient pose landmarks detected"%string
  \/ message = "Could not detect all required body parts"%string.
Proof.
  unfold PoseLib.analyzeBikeFit.
  destruct (List.length lms <? 33)%nat.
  - intros H. injection H as <-. left. reflexivity.
  - repeat match goal with
      | |- context [match JS.get lms ?j with _ => _ end] =>
          destruct (JS.get lms j)
      end; intros H; try discriminate H;
      injection H as <-; right; reflexivity.
Qed.

(** X25.  Whenever the result handler rejects a photo, the message that
    [handleAnalyze] shows is determined by the cause: "No person
    detected ..." when the detector returned no landmark, and "Could not
    detect all body parts clearly ..." when the feature extraction threw,
    for either pedal position. *)
Theorem rejection_is_explained
        (poseLandmarks : option (list (option Landmark)))
        (pos : PedalPosition) (img : PoseLib.HTMLImageElement)
        (dataURL : option string) (message : string)
        (Hrejected :
           PoseDetection.onResults Math_atan2 Math_sqrt Math_PI
                                   poseLandmarks pos img dataURL
           = JS.Err message) :
  let shown :=
    UploadPage.errorMessage
      ("Failed to analyze " ++ UploadPage.positionName pos
       ++ " photo: " ++ message) in
  match poseLandmarks with
  | Some (_ :: _) =>
      shown = "Could not detect all body parts clearly in one of the photos. Please ensure good lighting and clear view of your riding position."%string
  | _ =>
      shown = "No person detected in one of the images. Please ensure you are clearly visible in both side-view positions."%string
  end.
Proof.
  cbv zeta. unfold PoseDetection.onResults in Hrejected.
  destruct poseLandmarks as [[|first rest]|].
  - injection Hrejected as <-. destruct pos; vm_compute; reflexivity.
  - destruct (PoseLib.analyzeBikeFit _ _ _ _ _ _) as [a|m] eqn:E;
      [destruct dataURL; discriminate Hrejected|].
    injection Hrejected as <-.
    destruct (analyzeBikeFit_messages _ _ _ _ E) as [-> | ->];
      destruct pos; vm_compute; reflexivity.
  - injection Hrejected as <-. destruct pos; vm_compute; reflexivity.
Qed.

End FailureMessages.

Lemma rejection_is_explained_witness :
  UploadPage.errorMessage
    ("Failed to analyze " ++ UploadPage.positionName six_oclock
     ++ " photo: " ++ PoseDetection.noPoseMessage)
  = "No person detected in one of the images. Please ensure you are clearly visible in both side-view positions."%string.
Proof.
  exact (rejection_is_explained
           (fun _ _ => 0) (fun v => v) 3 None six_oclock
           (PoseLib.mkImage 640 480 640 480) None
           PoseDetection.noPoseMessage eq_refl).
Defined.

(* ------------------------------------------------------------------ *)
(** ** The onboarding page *)

(** X26.  The onboarding step stays between 1 and 4: from a step in that
    range [handleNext] and [handleBack] either move to a step in the
    range or leave the page, to "/upload" from step 4 and to "/" from
    step 1; going forward and then back returns to the same step. *)
Theorem onboarding_step_in_range (currentStep : Z)
        (Hrange : (1 <= currentStep <= Onboarding.totalSteps)%Z) :
  (forall s, Onboarding.handleNext currentStep = Onboarding.step s ->
             (1 <= s <= Onboarding.totalSteps)%Z
             /\ Onboarding.handleBack s = Onboarding.step currentStep)
  /\ (forall s, Onboarding.handleBack currentStep = Onboarding.step s ->
                (1 <= s <= Onboarding.totalSteps)%Z
                /\ Onboarding.handleNext s = Onboarding.step currentStep)
  /\ (Onboarding.handleNext currentStep = Onboarding.navigate "/upload"
      <-> currentStep = 4%Z)
  /\ (Onboarding.handleBack currentStep = Onboarding.navigate "/"
      <-> currentStep = 1%Z).
Proof.
  unfold Onboarding.handleNext, Onboarding.handleBack, Onboarding.totalSteps
    in *.
  split; [|split; [|split]].
  - intros s. destruct (currentStep <? 4)%Z eqn:E; [|discriminate].
    apply Z.ltb_lt in E. intros H. injection H as <-.
    split; [lia|].
    assert (E' : (currentStep + 1 >? 1)%Z = true) by (apply Z.gtb_lt; lia).
    rewrite E'. f_equal. lia.
  - intros s. destruct (currentStep >? 1)%Z eqn:E; [|discriminate].
    assert (E1 : (1 < currentStep)%Z) by (apply Z.gtb_lt; exact E).
    intros H. injection H as <-.
    split; [lia|].
    assert (E' : (currentStep - 1 <? 4)%Z = true) by (apply Z.ltb_lt; lia).
    rewrite E'. f_equal. lia.
  - destruct (currentStep <? 4)%Z eqn:E.
    + apply Z.ltb_lt in E. split; [discriminate | lia].
    + apply Z.ltb_ge in E. split; [lia | reflexivity].
  - destruct (currentStep >? 1)%Z eqn:E.
    + assert (1 < currentStep)%Z by (apply Z.gtb_lt; exact E).
      split; [discriminate | lia].
    + rewrite Z.gtb_ltb in E. apply Z.ltb_ge in E.
      split; [lia | reflexivity].
Qed.

Lemma onboarding_step_in_range_witness :
  Onboarding.handleNext 2 = Onboarding.step 3
  /\ Onboarding.handleBack 3 = Onboarding.step 2.
Proof.
  destruct (onboarding_step_in_range 2 ltac:(unfold Onboarding.totalSteps; lia))
    as [Hnext _].
  split; [reflexivity|].
  exact (proj2 (Hnext 3%Z eq_refl)).
Defined.

Lemma toggle_present (currentArray : list string) (value : string) :
  List.existsb (String.eqb value) currentArray = true
  <-> In value currentArray.
Proof.
  rewrite existsb_exists. split.
  - intros [w [Hw E]]. apply String.eqb_eq in E. subst. exact Hw.
  - intros H. exists value. split; [exact H | apply String.eqb_refl].
Qed.

(** X27.  [toggleArrayField] flips the selection of the given value and
    of no other: afterwards the value is in the array exactly when it was
    not before, every other value is in the array exactly when it was
    before, an array without repetition stays so, and toggling twice a
    value that was not selected restores the array. *)
Theorem toggle_flips_selection (currentArray : list string) (value : string) :
  let toggled := Onboarding.toggleArrayField currentArray value in
  (In value toggled <-> ~ In value currentArray)
  /\ (forall other, other <> value ->
                    (In other toggled <-> In other currentArray))
  /\ (NoDup currentArray -> NoDup toggled)
  /\ (~ In value currentArray ->
      Onboarding.toggleArrayField toggled value = currentArray).
Proof.
  cbv zeta. unfold Onboarding.toggleArrayField.
  destruct (List.existsb (String.eqb value) currentArray) eqn:E.
  - apply toggle_present in E.
    split; [|split; [|split]].
    + split.
      * intros H. apply filter_In in H. destruct H as [_ H].
        rewrite String.eqb_refl in H. discriminate H.
      * intros H. contradiction.
    + intros other Hneq. rewrite filter_In. split; [tauto|].
      intros H. split; [exact H|].
      apply negb_true_iff. apply String.eqb_neq. exact Hneq.
    + intros Hnd. apply NoDup_filter. exact Hnd.
    + intros H. contradiction.
  - assert (Hnot : ~ In value currentArray).
    { intros H. apply toggle_present in H. congruence. }
    split; [|split; [|split]].
    + split; [intros _; exact Hnot|].
      intros _. apply in_or_app. right. left. reflexivity.
    + intros other Hneq. rewrite in_app_iff. cbn. split; [|tauto].
      intros [H | [H | []]]; [exact H | congruence].
    + intros Hnd.
      apply Permutation_NoDup with (l := value :: currentArray).
      { apply Permutation_cons_append. }
      constructor; assumption.
    + intros _.
      assert (E' : List.existsb (String.eqb value) (currentArray ++ [value])
                   = true).
      { apply toggle_present. apply in_or_app. right. left. reflexivity. }
      rewrite E'. rewrite filter_app. cbn.
      rewrite String.eqb_refl. cbn. rewrite app_nil_r.
      clear E E'. induction currentArray as [|a l IH]; cbn; [reflexivity|].
      assert (Ha : String.eqb a value = false).
      { apply String.eqb_neq. intros ->. apply Hnot. left. reflexivity. }
      rewrite Ha. cbn. f_equal. apply IH.
      intros H. apply Hnot. right. exact H.
Qed.

(* ------------------------------------------------------------------ *)
(** ** The pose overlay *)

(** X28.  For an image of positive width and height the canvas fits in
    600 by 450, is never larger than the image, and keeps the aspect
    ratio of the image. *)
Theorem display_size_fits (img_width img_height : Q)
        (Hw : 0 < img_width) (Hh : 0 < img_height) :
  let size := PoseVisualization.displaySize img_width img_height in
  0 < fst size <= 600
  /\ 0 < snd size <= 450
  /\ fst size <= img_width
  /\ snd size <= img_height
  /\ fst size * img_height == snd size * img_width.
Proof.
  cbv zeta. unfold PoseVisualization.displaySize, JS.Math_min. cbv zeta.
  set (aspect := img_width / img_height).
  assert (Hne_h : ~ img_height == 0) by (intro E; rewrite E in Hh; lra).
  assert (Hne_w : ~ img_width == 0) by (intro E; rewrite E in Hw; lra).
  assert (Ha : aspect * img_height == img_width).
  { unfold aspect. field. exact Hne_h. }
  assert (Hapos : 0 < aspect).
  { unfold aspect. apply Qlt_shift_div_l; [exact Hh | lra]. }
  assert (Hne_a : ~ aspect == 0) by (intro E; rewrite E in Hapos; lra).
  set (dw := Qmin 600 img_width).
  assert (Hdw : 0 < dw <= 600 /\ dw <= img_width).
  { unfold dw. split; [split|].
    - apply Q.min_glb_lt; lra.
    - apply Q.le_min_l.
    - apply Q.le_min_r. }
  destruct Hdw as [[Hdw0 Hdw600] Hdww].
  set (dh := dw / aspect).
  assert (Hdh : dh * aspect == dw).
  { unfold dh. field. exact Hne_a. }
  assert (Hdh0 : 0 < dh).
  { unfold dh. apply Qlt_shift_div_l; [exact Hapos | lra]. }
  assert (Hdhh : dh <= img_height).
  { apply Qnot_lt_le. intro Hlt.
    assert (img_height * aspect < dh * aspect).
    { apply Qmult_lt_compat_r; assumption. }
    assert (img_height * aspect == img_width) by (rewrite <- Ha; ring).
    lra. }
  destruct (JS.gtb dh 450) eqn:E; reflect_cmp; cbn [fst snd].
  - assert (H450 : 450 * aspect < dw).
    { rewrite <- Hdh. apply Qmult_lt_compat_r; assumption. }
    assert (0 < 450 * aspect).
    { apply Qmult_lt_0_compat; [lra | exact Hapos]. }
    repeat split; try lra; rewrite <- Ha; ring.
  - repeat split; try lra; rewrite <- Ha; rewrite <- Hdh; ring.
Qed.

Lemma display_size_fits_witness :
  PoseVisualization.displaySize 1920 1080 = (600, 600 / (1920 / 1080))
  /\ snd (PoseVisualization.displaySize 1920 1080) <= 450.
Proof.
  split; [reflexivity|].
  destruct (display_size_fits 1920 1080) as [_ [[_ H] _]].
  - unfold Qlt. simpl. lia.
  - unfold Qlt. simpl. lia.
  - exact H.
Defined.

Section OverlayFacts.

Variable Math_atan2 : Q -> Q -> Q.
Variable Math_sqrt : Q -> Q.
Variable Math_PI : Q.

(** X29.  A pose from which [analyzeBikeFit] extracts a feature record is
    drawn completely: all five limb segments, all six joints and the
    three labels KNEE BEND, ELBOW and TORSO, in this order.  In general
    at most five segments and six joints are drawn. *)
Theorem analysed_pose_is_drawn_completely
        (lms : list (option Landmark)) (pos : option PedalPosition)
        (img : option PoseLib.HTMLImageElement) (scaleX scaleY : Q) :
  (forall a,
      PoseLib.analyzeBikeFit Math_atan2 Math_sqrt Math_PI lms pos img
      = JS.Ok a ->
      List.length (PoseVisualization.drawnConnections lms scaleX scaleY)
      = 5%nat
      /\ List.length (PoseVisualization.drawnLandmarks lms scaleX scaleY)
         = 6%nat
      /\ List.map snd
           (PoseVisualization.drawnLabels lms (kneeAngle a) (elbowAngle a)
                                          (torsoAngle a))
         = ["KNEE BEND"; "ELBOW"; "TORSO"]%string)
  /\ (List.length (PoseVisualization.drawnConnections lms scaleX scaleY)
      <= 5)%nat
  /\ (List.length (PoseVisualization.drawnLandmarks lms scaleX scaleY)
      <= 6)%nat.
Proof.
  unfold PoseLib.analyzeBikeFit, PoseVisualization.drawnConnections,
    PoseVisualization.drawnLandmarks, PoseVisualization.drawnLabels,
    PoseVisualization.connections, PoseVisualization.keyLandmarks, JS.push.
  cbn [List.flat_map]. cbv zeta.
  destruct (JS.get lms PoseLib.RIGHT_SHOULDER) as [shoulder|];
    destruct (JS.get lms PoseLib.RIGHT_ELBOW) as [elbow|];
    destruct (JS.get lms PoseLib.RIGHT_WRIST) as [wrist|];
    destruct (JS.get lms PoseLib.RIGHT_HIP) as [hip|];
    destruct (JS.get lms PoseLib.RIGHT_KNEE) as [knee|];
    destruct (JS.get lms PoseLib.RIGHT_ANKLE) as [ankle|];
    (split; [|split; cbn; lia]);
    intros a Ha;
    destruct (List.length lms <? 33)%nat; try discriminate Ha;
    repeat split; reflexivity.
Qed.

End OverlayFacts.
